(** * Movie review API: request handlers over a document collection

    A shallow embedding of the Express handlers of [routes/movieRoutes.js]
    (and of the duplicated handlers of the single-file servers) together
    with the part of the JavaScript runtime and of the Mongoose model layer
    that those handlers exercise.

    - [Js]       : JSON scalars, numeric coercion, [<], [!].
    - [Mongoose] : schema casts, validators and the [Movie] model operations
                   over a collection keyed by [_id].
    - [Model]    : the queries the handlers issue on the [Movie] model.
    - [Routes]   : the handlers of [routes/movieRoutes.js].
    - [Server]   : the review handlers of the single-file server.
    - [Moby]     : the read handler of the smaller single-file server.
    - [Api]      : the router, and the vocabulary of the properties. *)

From Stdlib Require Import ZArith QArith Qround String Ascii List Bool Lia.
From Stdlib Require Import DecimalString Sorting.Sorted Sorting.Permutation.
From stdpp Require Import gmap strings sorting.

Local Open Scope Z_scope.

(** ** JavaScript values and coercions *)

Module Js.

(** A Number other than NaN.  A finite number is kept as the rational it
    denotes (every binary64 value is one); the sign of zero is dropped.
    NaN is the absence of a [JsNumber]. *)
Inductive JsNumber : Type :=
| NegInfinity
| Finite (q : Q)
| PosInfinity.

(** What [express.json()] can put in a field of [req.body]: a JSON scalar,
    or [undefined] when the key is missing.  Arrays and nested objects are
    outside the model.  Strings are sequences of code units below 256. *)
Inductive JsValue : Type :=
| VUndefined
| VNull
| VBool (b : bool)
| VNum (n : JsNumber)
| VStr (s : string).

Definition is_undefined (v : JsValue) : bool :=
  match v with VUndefined => true | _ => false end.

(** *** Rounding to binary64, round-half-to-even *)

(** [floor (log2 (n / d))] *)
Definition floor_log2 (n d : positive) : Z :=
  let e := Z.log2 (Zpos n) - Z.log2 (Zpos d) in
  let above :=
    if 0 <=? e then Zpos d * 2 ^ e <=? Zpos n
    else Zpos d <=? Zpos n * 2 ^ (- e) in
  if above then e else e - 1.

Definition round_half_even (n d : Z) : Z :=
  let q := n / d in
  let r := n mod d in
  match 2 * r ?= d with
  | Lt => q
  | Gt => q + 1
  | Eq => if Z.even q then q else q + 1
  end.

Definition round_pos (n d : positive) : JsNumber :=
  let E := floor_log2 n d in
  let e := Z.max (E - 52) (-1074) in
  if 0 <=? e then
    let m := round_half_even (Zpos n) (Zpos d * 2 ^ e) in
    if 2 ^ 1024 <=? m * 2 ^ e then PosInfinity
    else Finite (Qred (m * 2 ^ e # 1))
  else
    let m := round_half_even (Zpos n * 2 ^ (- e)) (Zpos d) in
    Finite (Qred (m # Z.to_pos (2 ^ (- e)))).

Definition neg (n : JsNumber) : JsNumber :=
  match n with
  | NegInfinity => PosInfinity
  | Finite q => Finite (Qred (- q))
  | PosInfinity => NegInfinity
  end.

(** The Number value for a rational. *)
Definition round_double (q : Q) : JsNumber :=
  match Qnum q with
  | Z0 => Finite 0
  | Zpos n => round_pos n (Qden q)
  | Zneg n => neg (round_pos n (Qden q))
  end.

(** *** StringToNumber *)

Definition is_white (c : ascii) : bool :=
  let n := nat_of_ascii c in
  ((9 <=? n) && (n <=? 13) || (n =? 32) || (n =? 160))%nat.

Definition digit_val (base : Z) (c : ascii) : option Z :=
  let n := Z.of_nat (nat_of_ascii c) in
  let v :=
    if (48 <=? n) && (n <=? 57) then Some (n - 48)
    else if (97 <=? n) && (n <=? 102) then Some (n - 87)
    else if (65 <=? n) && (n <=? 70) then Some (n - 55)
    else None in
  match v with
  | Some d => if d <? base then Some d else None
  | None => None
  end.

Fixpoint drop_white (l : list ascii) : list ascii :=
  match l with
  | c :: l' => if is_white c then drop_white l' else l
  | [] => []
  end.

Definition trim (l : list ascii) : list ascii :=
  rev (drop_white (rev (drop_white l))).

(** Reads the longest prefix of digits: its value, its length, the rest. *)
Fixpoint read_digits (base : Z) (l : list ascii) (acc : Z) (len : Z)
  : Z * Z * list ascii :=
  match l with
  | c :: l' =>
      match digit_val base c with
      | Some d => read_digits base l' (acc * base + d) (len + 1)
      | None => (acc, len, l)
      end
  | [] => (acc, len, [])
  end.

Definition pow10 (e : Z) : Q :=
  if 0 <=? e then 10 ^ e # 1 else 1 # Z.to_pos (10 ^ (- e)).

Definition read_sign (l : list ascii) : bool * list ascii :=
  match l with
  | "+"%char :: l' => (false, l')
  | "-"%char :: l' => (true, l')
  | _ => (false, l)
  end.

(** [ExponentPart], optional: the exponent, or [None] when malformed. *)
Definition read_exponent (l : list ascii) : option Z :=
  match l with
  | [] => Some 0
  | c :: l' =>
      if (Ascii.eqb c "e" || Ascii.eqb c "E")%bool then
        let '(sg, l2) := read_sign l' in
        match read_digits 10 l2 0 0 with
        | (v, len, []) =>
            if 0 <? len then Some (if sg then - v else v) else None
        | _ => None
        end
      else None
  end.

(** [StrUnsignedDecimalLiteral], as the exact rational it denotes. *)
Definition read_unsigned_decimal (l : list ascii) : option Q :=
  let '(ip, ilen, l1) := read_digits 10 l 0 0 in
  let '(fp, flen, l2) :=
    match l1 with
    | "."%char :: l1' => read_digits 10 l1' 0 0
    | _ => (0, 0, l1)
    end in
  let dotted := match l1 with "."%char :: _ => true | _ => false end in
  if (ilen =? 0) && (flen =? 0) then None
  else if (ilen =? 0) && negb dotted then None
  else
    match read_exponent l2 with
    | Some e => Some (Qmult ((ip * 10 ^ flen + fp) # 1) (pow10 (e - flen)))
    | None => None
    end.

Definition infinity_chars : list ascii :=
  list_ascii_of_string "Infinity".

Definition read_radix (base : Z) (l : list ascii) : option JsNumber :=
  match read_digits base l 0 0 with
  | (v, len, []) => if 0 <? len then Some (round_double (v # 1)) else None
  | _ => None
  end.

(** [None] is NaN. *)
Definition StringToNumber (s : string) : option JsNumber :=
  let l := trim (list_ascii_of_string s) in
  match l with
  | [] => Some (Finite 0)
  | "0"%char :: "x"%char :: l' | "0"%char :: "X"%char :: l' => read_radix 16 l'
  | "0"%char :: "o"%char :: l' | "0"%char :: "O"%char :: l' => read_radix 8 l'
  | "0"%char :: "b"%char :: l' | "0"%char :: "B"%char :: l' => read_radix 2 l'
  | _ =>
      let '(sg, l') := read_sign l in
      if bool_decide (l' = infinity_chars)
      then Some (if sg then NegInfinity else PosInfinity)
      else
        match read_unsigned_decimal l' with
        | Some q =>
            let n := round_double q in Some (if sg then neg n else n)
        | None => None
        end
  end.

(** *** ToNumber, ToBoolean and the relational operators *)

Definition ToNumber (v : JsValue) : option JsNumber :=
  match v with
  | VUndefined => None
  | VNull => Some (Finite 0)
  | VBool true => Some (Finite 1)
  | VBool false => Some (Finite 0)
  | VNum n => Some n
  | VStr s => StringToNumber s
  end.

Definition ToBoolean (v : JsValue) : bool :=
  match v with
  | VUndefined | VNull => false
  | VBool b => b
  | VNum (Finite q) => negb (Qeq_bool q 0)
  | VNum _ => true
  | VStr s => negb (String.eqb s "")
  end.

(** [!v] *)
Definition not (v : JsValue) : bool := negb (ToBoolean v).

Definition num_ltb (a b : JsNumber) : bool :=
  match a, b with
  | NegInfinity, NegInfinity => false
  | NegInfinity, _ => true
  | _, NegInfinity => false
  | PosInfinity, _ => false
  | Finite _, PosInfinity => true
  | Finite x, Finite y => match Qcompare x y with Lt => true | _ => false end
  end.

Definition num_leb (a b : JsNumber) : bool := negb (num_ltb b a).

(** Code-unit order on strings. *)
Fixpoint str_ltb (a b : string) : bool :=
  match a, b with
  | _, EmptyString => false
  | EmptyString, String _ _ => true
  | String x a', String y b' =>
      match Nat.compare (nat_of_ascii x) (nat_of_ascii y) with
      | Lt => true
      | Gt => false
      | Eq => str_ltb a' b'
      end
  end.

(** [a < b] on primitives: two strings compare as strings, anything else
    numerically, and a NaN operand makes the comparison false. *)
Definition lt (a b : JsValue) : bool :=
  match a, b with
  | VStr x, VStr y => str_ltb x y
  | _, _ =>
      match ToNumber a, ToNumber b with
      | Some x, Some y => num_ltb x y
      | _, _ => false
      end
  end.

(** [a > b] *)
Definition gt (a b : JsValue) : bool := lt b a.

Definition num (z : Z) : JsValue := VNum (Finite (z # 1)).

(** *** Number::toString (radix 10) *)

Definition same_number (a b : JsNumber) : bool :=
  match a, b with
  | NegInfinity, NegInfinity | PosInfinity, PosInfinity => true
  | Finite x, Finite y => Qeq_bool x y
  | _, _ => false
  end.

(** The least [n >= n0] with [q < 10 ^ n]. *)
Fixpoint decimal_exponent (fuel : nat) (q : Q) (n0 : Z) : Z :=
  match fuel with
  | O => n0
  | S fuel' =>
      match Qcompare q (pow10 n0) with
      | Lt => n0
      | _ => decimal_exponent fuel' q (n0 + 1)
      end
  end.

(** For [k] digits: the significand [s] and exponent [n] with
    [10^(k-1) <= s < 10^k] whose value [s * 10^(n-k)] is the Number [q],
    the closer one when both neighbours are. *)
Definition significand (q : Q) (n k : Z) : option (Z * Z) :=
  let x := Qmult q (pow10 (k - n)) in
  let lo := Qfloor x in
  let hi := lo + 1 in
  let hits s := same_number (round_double (Qmult (s # 1) (pow10 (n - k)))) (Finite q) in
  let norm s := if s =? 10 ^ k then (10 ^ (k - 1), n + 1) else (s, n) in
  match hits lo && (10 ^ (k - 1) <=? lo), hits hi with
  | true, true =>
      match Qcompare (Qminus x (lo # 1)) (Qminus (hi # 1) x) with
      | Lt => Some (norm lo)
      | Gt => Some (norm hi)
      | Eq => Some (norm (if Z.even lo then lo else hi))
      end
  | true, false => Some (norm lo)
  | false, true => Some (norm hi)
  | false, false => None
  end.

(** The shortest significand; seventeen digits always suffice. *)
Fixpoint shortest (fuel : nat) (q : Q) (n k : Z) : Z * Z * Z :=
  match fuel with
  | O => (Qfloor (Qmult q (pow10 (k - n))), n, k)
  | S fuel' =>
      match significand q n k with
      | Some (s, n') => (s, n', k)
      | None => shortest fuel' q n (k + 1)
      end
  end.

Definition digits (z : Z) : string :=
  NilZero.string_of_uint (N.to_uint (Z.to_N z)).

Fixpoint zeros (n : nat) : string :=
  match n with O => "" | S n' => String "0" (zeros n') end.

Definition format_decimal (s n k : Z) : string :=
  let d := digits s in
  if (k <=? n) && (n <=? 21) then
    d +:+ zeros (Z.to_nat (n - k))
  else if (0 <? n) && (n <=? 21) then
    substring 0 (Z.to_nat n) d +:+ "." +:+
    substring (Z.to_nat n) (Z.to_nat (k - n)) d
  else if (-6 <? n) && (n <=? 0) then
    "0." +:+ zeros (Z.to_nat (- n)) +:+ d
  else
    let e := n - 1 in
    let sg := if 0 <=? e then "+" else "-" in
    let mant :=
      if k =? 1 then d
      else substring 0 1 d +:+ "." +:+ substring 1 (Z.to_nat (k - 1)) d in
    mant +:+ "e" +:+ sg +:+ digits (Z.abs e).

Definition positive_to_string (q : Q) : string :=
  let n0 := floor_log2 (Z.to_pos (Qnum q)) (Qden q) * 30103 / 100000 in
  let n := decimal_exponent 4 q n0 in
  let '(s, n', k) := shortest 17 q n 1 in
  format_decimal s n' k.

Definition NumberToString (x : JsNumber) : string :=
  match x with
  | NegInfinity => "-Infinity"
  | PosInfinity => "Infinity"
  | Finite q =>
      match Qnum q with
      | Z0 => "0"
      | Zpos _ => positive_to_string q
      | Zneg _ => "-" +:+ positive_to_string (Qopp q)
      end
  end.

End Js.

(** ** The Mongoose model layer *)

Module Mongoose.
Import Js.

(** The 96-bit value of an ObjectId. *)
Definition ObjectId : Type := N.

(** The [ObjectId] constructor applied to a path parameter: exactly
    twenty-four hexadecimal characters, anything else is refused. *)
Definition castObjectId (s : string) : option ObjectId :=
  match read_digits 16 (list_ascii_of_string s) 0 0 with
  | (v, 24, []) => Some (Z.to_N v)
  | _ => None
  end.

Inductive Error : Type :=
| CastError          (* a value that does not fit the schema type *)
| ValidationError    (* a schema validator rejected a value *)
| DuplicateKey       (* E11000: a unique index rejected a write *)
| ConnectionError.   (* the server could not be reached *)

Inductive Result (A : Type) : Type :=
| Ok (a : A)
| Throw (e : Error).
Arguments Ok {A} a.
Arguments Throw {A} e.

(** *** Documents

    [reviewSchema] is [{ rating: Number, comment: String }] with an
    automatic [_id]; [movieSchema] is [{ title: String (unique),
    reviews: [reviewSchema] }] with timestamps. *)
Record Review : Type := mkReview {
  r_id : ObjectId;
  rating : JsValue;
  comment : JsValue
}.

Record Movie : Type := mkMovie {
  _id : ObjectId;
  title : string;
  reviews : list Review;
  createdAt : Z;
  updatedAt : Z
}.

(** *** Schema casts *)

(** [castNumber] of [lib/cast/number.js]. *)
Definition castNumber (v : JsValue) : Result JsValue :=
  match v with
  | VUndefined | VNull => Ok v
  | VStr "" => Ok VNull
  | VStr _ | VBool _ =>
      match ToNumber v with
      | Some n => Ok (VNum n)
      | None => Throw CastError
      end
  | VNum n => Ok v
  end.

(** [castString] of [lib/cast/string.js]. *)
Definition castString (v : JsValue) : Result JsValue :=
  match v with
  | VUndefined | VNull => Ok v
  | VStr _ => Ok v
  | VBool true => Ok (VStr "true")
  | VBool false => Ok (VStr "false")
  | VNum n => Ok (VStr (NumberToString n))
  end.

(** *** Schema validators *)

(** [rating: { required: true, min: 1, max: 5 }] on a cast value. *)
Definition validate_rating (v : JsValue) : bool :=
  match v with
  | VNum n => num_leb (Finite 1) n && num_leb n (Finite 5)
  | _ => false
  end.

(** [required: true] on a cast String: a string of positive length. *)
Definition validate_required_string (v : JsValue) : bool :=
  match v with
  | VStr s => negb (String.eqb s "")
  | _ => false
  end.

(** *** The collection and the world around a request *)

(** The calls a handler makes on the [Movie] model, with the arguments it
    passes. *)
Inductive Call : Type :=
| CFind
| CFindById (id : string)
| CSave (title : JsValue)
| CUpdateTitle (id : string) (title : JsValue)
| CFindByIdAndDelete (id : string)
| CPushReview (id : string) (rating comment : JsValue)
| CSetReview (movieId reviewId : string) (rating comment : option JsValue)
| CPullReview (movieId reviewId : string).

Record World : Type := mkWorld {
  collection : gmap ObjectId Movie;   (* the documents, keyed by [_id] *)
  connected : bool;                   (* whether the server answers *)
  issued : list Call                  (* the model calls made so far *)
}.

(** What a request draws from its environment: the clock, and the
    ObjectId the driver generates if the request creates a document. *)
Record Env : Type := mkEnv {
  now : Z;
  fresh : ObjectId
}.

Definition M (A : Type) : Type := World -> Result A * World.

#[global] Instance M_ret : MRet M := fun A a w => (Ok a, w).
#[global] Instance M_bind : MBind M := fun A B f m w =>
  match m w with
  | (Ok a, w') => f a w'
  | (Throw e, w') => (Throw e, w')
  end.

Definition throw {A} (e : Error) : M A := fun w => (Throw e, w).

Definition lift {A} (r : Result A) : M A := fun w => (r, w).

Definition issue (c : Call) : M unit := fun w =>
  (Ok tt, mkWorld (collection w) (connected w) (issued w ++ [c])).

(** One round trip to the server. *)
Definition server : M (gmap ObjectId Movie) := fun w =>
  if connected w then (Ok (collection w), w) else (Throw ConnectionError, w).

Definition write (c : gmap ObjectId Movie) : M unit := fun w =>
  (Ok tt, mkWorld c (connected w) (issued w)).

Definition cast_id (s : string) : M ObjectId :=
  match castObjectId s with
  | Some o => mret o
  | None => throw CastError
  end.

Definition check (b : bool) (e : Error) : M unit :=
  if b then mret tt else throw e.

End Mongoose.

(** ** The [Movie] model: the queries the handlers issue *)

Module Model.
Import Js Mongoose.

(** Ascending order of [title], by code unit. *)
Definition title_le (a b : Movie) : Prop := str_ltb (title b) (title a) = false.

#[global] Instance title_le_dec a b : Decision (title_le a b).
Proof. unfold title_le. apply _. Defined.

Definition documents (c : gmap ObjectId Movie) : list Movie :=
  (map_to_list c).*2.

(** Whether a document stored under another key than [k] has title [t]:
    the unique index on [title]. *)
Definition title_taken (t : string) (k : ObjectId) (c : gmap ObjectId Movie) : bool :=
  existsb (fun km => String.eqb (title km.2) t && negb (N.eqb km.1 k))
          (map_to_list c).

(** [Movie.find().sort({ title: 1 })] *)
Definition find_sort_title : M (list Movie) :=
  issue CFind;;
  c ← server;
  mret (merge_sort title_le (documents c)).

(** [Movie.findById(id)] *)
Definition findById (id : string) : M (option Movie) :=
  issue (CFindById id);;
  k ← cast_id id;
  c ← server;
  mret (c !! k).

(** [new Movie({ title }).save()] *)
Definition save (env : Env) (t : JsValue) : M Movie :=
  issue (CSave t);;
  t' ← lift (castString t);
  check (validate_required_string t') ValidationError;;
  match t' with
  | VStr s =>
      c ← server;
      check (negb (bool_decide (is_Some (c !! fresh env)))) DuplicateKey;;
      check (negb (title_taken s (fresh env) c)) DuplicateKey;;
      let m := mkMovie (fresh env) s [] (now env) (now env) in
      write (<[fresh env := m]> c);;
      mret m
  | _ => throw ValidationError
  end.

(** [Movie.findByIdAndUpdate(id, { title }, { new: true, runValidators: true })] *)
Definition findByIdAndUpdate_title (env : Env) (id : string) (t : JsValue)
  : M (option Movie) :=
  issue (CUpdateTitle id t);;
  k ← cast_id id;
  t' ← lift (castString t);
  check (validate_required_string t') ValidationError;;
  match t' with
  | VStr s =>
      c ← server;
      match c !! k with
      | None => mret None
      | Some m =>
          check (negb (title_taken s k c)) DuplicateKey;;
          let m' := mkMovie (_id m) s (reviews m) (createdAt m) (now env) in
          write (<[k := m']> c);;
          mret (Some m')
      end
  | _ => throw ValidationError
  end.

(** [Movie.findByIdAndDelete(id)] *)
Definition findByIdAndDelete (id : string) : M (option Movie) :=
  issue (CFindByIdAndDelete id);;
  k ← cast_id id;
  c ← server;
  match c !! k with
  | None => mret None
  | Some m => write (delete k c);; mret (Some m)
  end.

(** [Movie.findByIdAndUpdate(id, { $push: { reviews: { rating, comment } } },
    { new: true })]: the pushed object is cast to a [reviewSchema]
    subdocument, which gives it an [_id]; a field that does not cast makes
    the call throw; no validator runs. *)
Definition findByIdAndUpdate_push (env : Env) (id : string) (r c : JsValue)
  : M (option Movie) :=
  issue (CPushReview id r c);;
  k ← cast_id id;
  r' ← lift (castNumber r);
  c' ← lift (castString c);
  docs ← server;
  match docs !! k with
  | None => mret None
  | Some m =>
      let m' := mkMovie (_id m) (title m)
                  (reviews m ++ [mkReview (fresh env) r' c'])
                  (createdAt m) (now env) in
      write (<[k := m']> docs);;
      mret (Some m')
  end.

(** The update document [{ $set: updateFields }] of the PATCH handler:
    each of the two keys is present or not. *)
Record UpdateFields : Type := mkUpdateFields {
  set_rating : option JsValue;    (* 'reviews.$.rating' *)
  set_comment : option JsValue    (* 'reviews.$.comment' *)
}.

Definition cast_field (cast : JsValue -> Result JsValue) (f : option JsValue)
  : Result (option JsValue) :=
  match f with
  | None => Ok None
  | Some v => match cast v with Ok v' => Ok (Some v') | Throw e => Throw e end
  end.

Definition validate_field (valid : JsValue -> bool) (f : option JsValue) : bool :=
  match f with None => true | Some v => valid v end.

Definition matches (rid : ObjectId) (r : Review) : bool := N.eqb (r_id r) rid.

Definition apply_fields (f : UpdateFields) (r : Review) : Review :=
  mkReview (r_id r)
    (match set_rating f with Some v => v | None => rating r end)
    (match set_comment f with Some v => v | None => comment r end).

(** The positional operator [$]: the first element that matches. *)
Fixpoint update_first (rid : ObjectId) (f : UpdateFields) (l : list Review)
  : list Review :=
  match l with
  | [] => []
  | r :: l' =>
      if matches rid r then apply_fields f r :: l'
      else r :: update_first rid f l'
  end.

(** [Movie.findOneAndUpdate({ _id: movieId, 'reviews._id': reviewId },
    { $set: updateFields }, { new: true, runValidators: true })] *)
Definition findOneAndUpdate_set (env : Env) (movieId reviewId : string)
    (f : UpdateFields) : M (option Movie) :=
  issue (CSetReview movieId reviewId (set_rating f) (set_comment f));;
  k ← cast_id movieId;
  rid ← cast_id reviewId;
  r' ← lift (cast_field castNumber (set_rating f));
  c' ← lift (cast_field castString (set_comment f));
  check (validate_field validate_rating r') ValidationError;;
  check (validate_field validate_required_string c') ValidationError;;
  docs ← server;
  match docs !! k with
  | None => mret None
  | Some m =>
      if existsb (matches rid) (reviews m) then
        let m' := mkMovie (_id m) (title m)
                    (update_first rid (mkUpdateFields r' c') (reviews m))
                    (createdAt m) (now env) in
        write (<[k := m']> docs);;
        mret (Some m')
      else mret None
  end.

(** [Movie.findByIdAndUpdate(movieId, { $pull: { reviews: { _id: reviewId } } },
    { new: true })]: every element with that [_id] is removed. *)
Definition findByIdAndUpdate_pull (env : Env) (movieId reviewId : string)
  : M (option Movie) :=
  issue (CPullReview movieId reviewId);;
  k ← cast_id movieId;
  rid ← cast_id reviewId;
  docs ← server;
  match docs !! k with
  | None => mret None
  | Some m =>
      let m' := mkMovie (_id m) (title m)
                  (List.filter (fun r => negb (matches rid r)) (reviews m))
                  (createdAt m) (now env) in
      write (<[k := m']> docs);;
      mret (Some m')
  end.

End Model.

(** ** Requests and responses *)

Module Http.
Import Js Mongoose.

(** The fields the handlers read from [req.body]; a missing key is
    [VUndefined]. *)
Record Body : Type := mkBody {
  body_title : JsValue;
  body_rating : JsValue;
  body_comment : JsValue
}.

Inductive Json : Type :=
| JMessage (s : string)                 (* { message: <fixed text> } *)
| JError (e : Error)                    (* { message: err.message } *)
| JMovie (m : Movie)
| JMovies (l : list Movie)
| JReviews (movieId : string) (t : string) (rs : list Review).

Record Response : Type := mkResponse {
  status : Z;
  json : Json
}.

Definition Handler : Type := World -> Response * World.

(** [return res.status(s).json(j)] before any model call. *)
Definition respond (s : Z) (j : Json) : Handler := fun w => (mkResponse s j, w).

(** [try { ... } catch (err) { ... }] around the model calls. *)
Definition try_catch (body : M Response) (handler : Error -> Response) : Handler :=
  fun w =>
    match body w with
    | (Ok r, w') => (r, w')
    | (Throw e, w') => (handler e, w')
    end.

Definition movie_not_found : Response :=
  mkResponse 404 (JMessage "MOVIE NOT FOUND!").

End Http.

(** ** [routes/movieRoutes.js] *)

Module Routes.
Import Js Mongoose Http.

(** [router.get('/movies')] *)
Definition get_movies : Handler :=
  try_catch
    (movies ← Model.find_sort_title;
     mret (mkResponse 200 (JMovies movies)))
    (fun err => mkResponse 500 (JError err)).

(** [router.get('/movies/:id')] *)
Definition get_movie (id : string) : Handler :=
  try_catch
    (movie ← Model.findById id;
     match movie with
     | None => mret movie_not_found
     | Some m => mret (mkResponse 200 (JMovie m))
     end)
    (fun err => mkResponse 500 (JError err)).

(** [router.post('/movies')] *)
Definition post_movies (env : Env) (body : Body) : Handler :=
  let title := body_title body in
  if Js.not title then respond 400 (JMessage "TITLE REQUIRED!")
  else
    try_catch
      (newMovie ← Model.save env title;
       mret (mkResponse 201 (JMovie newMovie)))
      (fun err => mkResponse 400 (JError err)).

(** [router.put('/movies/:id')] *)
Definition put_movie (env : Env) (id : string) (body : Body) : Handler :=
  let newTitle := body_title body in
  if Js.not newTitle then respond 400 (JMessage "NEW TITLE REQUIRED!")
  else
    try_catch
      (updatedMovie ← Model.findByIdAndUpdate_title env id newTitle;
       match updatedMovie with
       | None => mret movie_not_found
       | Some m => mret (mkResponse 200 (JMovie m))
       end)
      (fun err => mkResponse 400 (JError err)).

(** [router.delete('/movies/:id')] *)
Definition delete_movie (id : string) : Handler :=
  try_catch
    (deletedMovie ← Model.findByIdAndDelete id;
     match deletedMovie with
     | None => mret movie_not_found
     | Some m => mret (mkResponse 200 (JMovie m))
     end)
    (fun err => mkResponse 500 (JError err)).

(** [router.get('/movies/:id/reviews')] *)
Definition get_reviews (id : string) : Handler :=
  try_catch
    (movie ← Model.findById id;
     match movie with
     | None => mret movie_not_found
     | Some m => mret (mkResponse 200 (JReviews id (title m) (reviews m)))
     end)
    (fun err => mkResponse 500 (JError err)).

(** The guard of [router.post('/movies/:id/reviews')]. *)
Definition post_reviews_invalid (body : Body) : bool :=
  let rating := body_rating body in
  let comment := body_comment body in
  is_undefined rating || is_undefined comment
  || lt rating (num 1) || gt rating (num 5).

(** [router.post('/movies/:id/reviews')] *)
Definition post_reviews (env : Env) (id : string) (body : Body) : Handler :=
  if post_reviews_invalid body
  then respond 400 (JMessage "INVALID COMMENT AND/OR RATING!")
  else
    try_catch
      (movie ← Model.findByIdAndUpdate_push env id
                 (body_rating body) (body_comment body);
       match movie with
       | None => mret movie_not_found
       | Some m => mret (mkResponse 200 (JMovie m))
       end)
      (fun err => mkResponse 400 (JError err)).

(** The guard of [router.patch('/movies/:movieId/reviews/:reviewId')]. *)
Definition patch_review_invalid (body : Body) : bool :=
  let rating := body_rating body in
  let comment := body_comment body in
  (negb (is_undefined rating) && (lt rating (num 1) || gt rating (num 5)))
  || (is_undefined rating && is_undefined comment).

(** [updateFields]: a key for each field of the body that is not
    [undefined]. *)
Definition updateFields (body : Body) : Model.UpdateFields :=
  let rating := body_rating body in
  let comment := body_comment body in
  Model.mkUpdateFields
    (if negb (is_undefined rating) then Some rating else None)
    (if negb (is_undefined comment) then Some comment else None).

(** [router.patch('/movies/:movieId/reviews/:reviewId')] *)
Definition patch_review (env : Env) (movieId reviewId : string) (body : Body)
  : Handler :=
  if patch_review_invalid body
  then respond 400 (JMessage "INVALID RATING (must be 1-5) OR MISSING DATA.")
  else
    try_catch
      (updatedMovie ← Model.findOneAndUpdate_set env movieId reviewId
                        (updateFields body);
       match updatedMovie with
       | None => mret (mkResponse 404 (JMessage "MOVIE or REVIEW NOT FOUND!"))
       | Some m => mret (mkResponse 200 (JMovie m))
       end)
      (fun err => mkResponse 400 (JError err)).

(** [router.delete('/movies/:movieId/reviews/:reviewId')] *)
Definition delete_review (env : Env) (movieId reviewId : string) : Handler :=
  try_catch
    (updatedMovie ← Model.findByIdAndUpdate_pull env movieId reviewId;
     match updatedMovie with
     | None => mret movie_not_found
     | Some m => mret (mkResponse 200 (JMovie m))
     end)
    (fun err => mkResponse 500 (JError err)).

End Routes.

(** ** The single-file server with the API documentation

    Its handlers repeat those of [routes/movieRoutes.js] under the
    [/api/v1] prefix; the guard of the PATCH handler is written
    differently. *)

Module Server.
Import Js Mongoose Http.

(** The guard of [app.post('/api/v1/movies/:id/reviews')]. *)
Definition post_reviews_invalid (body : Body) : bool :=
  let rating := body_rating body in
  let comment := body_comment body in
  is_undefined rating || is_undefined comment
  || lt rating (num 1) || gt rating (num 5).

(** [app.post('/api/v1/movies/:id/reviews')] *)
Definition post_reviews (env : Env) (id : string) (body : Body) : Handler :=
  if post_reviews_invalid body
  then respond 400 (JMessage "INVALID COMMENT AND/OR RATING!")
  else
    try_catch
      (movie ← Model.findByIdAndUpdate_push env id
                 (body_rating body) (body_comment body);
       match movie with
       | None => mret movie_not_found
       | Some m => mret (mkResponse 200 (JMovie m))
       end)
      (fun err => mkResponse 400 (JError err)).

(** The guard of [app.patch('/api/v1/movies/:movieId/reviews/:reviewId')]:
    the second disjunct is [!rating && !comment]. *)
Definition patch_review_invalid (body : Body) : bool :=
  let rating := body_rating body in
  let comment := body_comment body in
  (negb (is_undefined rating) && (lt rating (num 1) || gt rating (num 5)))
  || (Js.not rating && Js.not comment).

(** [app.patch('/api/v1/movies/:movieId/reviews/:reviewId')] *)
Definition patch_review (env : Env) (movieId reviewId : string) (body : Body)
  : Handler :=
  if patch_review_invalid body
  then respond 400 (JMessage "INVALID RATING (must be 1-5) OR MISSING DATA.")
  else
    try_catch
      (updatedMovie ← Model.findOneAndUpdate_set env movieId reviewId
                        (Routes.updateFields body);
       match updatedMovie with
       | None => mret (mkResponse 404 (JMessage "MOVIE or REVIEW NOT FOUND!"))
       | Some m => mret (mkResponse 200 (JMovie m))
       end)
      (fun err => mkResponse 400 (JError err)).

(** [app.delete('/api/v1/movies/:movieId/reviews/:reviewId')] *)
Definition delete_review (env : Env) (movieId reviewId : string) : Handler :=
  try_catch
    (updatedMovie ← Model.findByIdAndUpdate_pull env movieId reviewId;
     match updatedMovie with
     | None => mret movie_not_found
     | Some m => mret (mkResponse 200 (JMovie m))
     end)
    (fun err => mkResponse 500 (JError err)).

End Server.

(** ** The smaller single-file server *)

Module Moby.
Import Js Mongoose Http.

(** [app.get('/api/v1/movies/:id')] *)
Definition get_movie (id : string) : Handler :=
  try_catch
    (movie ← Model.findById id;
     match movie with
     | None => mret movie_not_found
     | Some m => mret (mkResponse 200 (JMovie m))
     end)
    (fun err => mkResponse 500 (JError err)).

End Moby.

(** ** The router, and what the properties below speak of *)

Module Api.
Import Js Mongoose Http.

Inductive Request : Type :=
| GetMovies
| GetMovie (id : string)
| PostMovies (body : Body)
| PutMovie (id : string) (body : Body)
| DeleteMovie (id : string)
| GetReviews (id : string)
| PostReviews (id : string) (body : Body)
| PatchReview (movieId reviewId : string) (body : Body)
| DeleteReview (movieId reviewId : string).

(** [app.use('/api/v1', movieRoutes)] *)
Definition router (env : Env) (req : Request) : Handler :=
  match req with
  | GetMovies => Routes.get_movies
  | GetMovie id => Routes.get_movie id
  | PostMovies body => Routes.post_movies env body
  | PutMovie id body => Routes.put_movie env id body
  | DeleteMovie id => Routes.delete_movie id
  | GetReviews id => Routes.get_reviews id
  | PostReviews id body => Routes.post_reviews env id body
  | PatchReview movieId reviewId body =>
      Routes.patch_review env movieId reviewId body
  | DeleteReview movieId reviewId => Routes.delete_review env movieId reviewId
  end.


(** A rating within the bounds of the schema. *)
Definition in_range (v : JsValue) : Prop :=
  exists q, v = VNum (Finite q) /\ (1 <= q <= 5)%Q.

(** A rating that is a whole number. *)
Definition integral (v : JsValue) : Prop :=
  exists q (z : Z), v = VNum (Finite q) /\ (q == z # 1)%Q.


(** A stored document with title [t] lives under key [k]. *)
Definition titled (c : gmap ObjectId Movie) (t : string) (k : ObjectId) : Prop :=
  exists m, c !! k = Some m /\ title m = t.

Definition exactly_one_titled (c : gmap ObjectId Movie) (t : string) : Prop :=
  exists k, titled c t k /\ forall k', titled c t k' -> k' = k.

Definition none_titled (c : gmap ObjectId Movie) (t : string) : Prop :=
  forall k, ~ titled c t k.

(** A body as the API documents it: an optional numeric rating and an
    optional text comment. *)
Definition review_body (r : option JsNumber) (c : option string) : Body :=
  mkBody VUndefined
    (match r with Some n => VNum n | None => VUndefined end)
    (match c with Some s => VStr s | None => VUndefined end).

(** The rating, when given, is within [1, 5]; the comment, when given, is
    not empty; one of the two is given. *)
Definition valid_patch (r : option JsNumber) (c : option string) : Prop :=
  (is_Some r \/ is_Some c)
  /\ (forall n, r = Some n ->
        num_leb (Finite 1) n = true /\ num_leb n (Finite 5) = true)
  /\ (forall s, c = Some s -> s <> "").

(** Whether the update of the PATCH handler gets through the schema: each
    field that the body gives casts to its type and passes the validators of
    that field. *)
Definition schema_accepts (body : Body) : bool :=
  match Model.cast_field castNumber (Model.set_rating (Routes.updateFields body)),
        Model.cast_field castString (Model.set_comment (Routes.updateFields body))
  with
  | Ok r', Ok c' =>
      Model.validate_field validate_rating r'
      && Model.validate_field validate_required_string c'
  | _, _ => false
  end.

(** No review of the list has the identifier [rid]. *)
Definition no_review (rid : ObjectId) (l : list Review) : Prop :=
  Forall (fun r => r_id r <> rid) l.

Definition title_body (t : string) : Body :=
  mkBody (VStr t) VUndefined VUndefined.

End Api.

(** ** A small collection to run the handlers on *)

Module Sample.
Import Js Mongoose Http.

Definition inception_id : string := "0000000000000000000000a1".
Definition review_id : string := "0000000000000000000000a2".
Definition other_id : string := "0000000000000000000000a3".

Definition great : Review := mkReview 162%N (num 5) (VStr "Great").

Definition inception : Movie := mkMovie 161%N "Inception" [great] 10 20.

Definition world : World := mkWorld {[ 161%N := inception ]} true [].

Definition env : Env := mkEnv 30 163%N.

(** [{ comment: false }] and [{ comment: "" }] *)
Definition comment_false : Body := mkBody VUndefined VUndefined (VBool false).
Definition comment_empty : Body := mkBody VUndefined VUndefined (VStr "").

(** [{ rating: 3, comment: "" }] and [{ rating: 2.5, comment: "ok" }] *)
Definition rated_3_no_text : Body := mkBody VUndefined (num 3) (VStr "").
Definition rated_2_5 : Body :=
  mkBody VUndefined (VNum (Finite (5 # 2))) (VStr "ok").

(** [{ comment: "x" }] *)
Definition comment_x : Body := mkBody VUndefined VUndefined (VStr "x").

(** Four movies, created in the order b, a, c, B. *)
Definition movie_b : Movie := mkMovie 1%N "b" [] 1 1.
Definition movie_a : Movie := mkMovie 2%N "a" [] 2 2.
Definition movie_c : Movie := mkMovie 3%N "c" [great] 3 3.
Definition movie_B : Movie := mkMovie 4%N "B" [] 4 4.

Definition shelf : World :=
  mkWorld (<[4%N := movie_B]> (<[3%N := movie_c]> (<[2%N := movie_a]>
             {[ 1%N := movie_b ]})))
          true [].

End Sample.

(** ** The movie handlers of the single-file server, and its routes *)

Module ServerMovies.
Import Js Mongoose Http Api.

(** [app.get('/api/v1/movies')] *)
Definition get_movies : Handler :=
  try_catch
    (movies ← Model.find_sort_title;
     mret (mkResponse 200 (JMovies movies)))
    (fun err => mkResponse 500 (JError err)).

(** [app.get('/api/v1/movies/:id')] *)
Definition get_movie (id : string) : Handler :=
  try_catch
    (movie ← Model.findById id;
     match movie with
     | None => mret movie_not_found
     | Some m => mret (mkResponse 200 (JMovie m))
     end)
    (fun err => mkResponse 500 (JError err)).

(** [app.post('/api/v1/movies')] *)
Definition post_movies (env : Env) (body : Body) : Handler :=
  let title := body_title body in
  if Js.not title then respond 400 (JMessage "TITLE REQUIRED!")
  else
    try_catch
      (newMovie ← Model.save env title;
       mret (mkResponse 201 (JMovie newMovie)))
      (fun err => mkResponse 400 (JError err)).

(** [app.put('/api/v1/movies/:id')] *)
Definition put_movie (env : Env) (id : string) (body : Body) : Handler :=
  let newTitle := body_title body in
  if Js.not newTitle then respond 400 (JMessage "NEW TITLE REQUIRED!")
  else
    try_catch
      (updatedMovie ← Model.findByIdAndUpdate_title env id newTitle;
       match updatedMovie with
       | None => mret movie_not_found
       | Some m => mret (mkResponse 200 (JMovie m))
       end)
      (fun err => mkResponse 400 (JError err)).

(** [app.delete('/api/v1/movies/:id')] *)
Definition delete_movie (id : string) : Handler :=
  try_catch
    (deletedMovie ← Model.findByIdAndDelete id;
     match deletedMovie with
     | None => mret movie_not_found
     | Some m => mret (mkResponse 200 (JMovie m))
     end)
    (fun err => mkResponse 500 (JError err)).

(** [app.get('/api/v1/movies/:id/reviews')] *)
Definition get_reviews (id : string) : Handler :=
  try_catch
    (movie ← Model.findById id;
     match movie with
     | None => mret movie_not_found
     | Some m => mret (mkResponse 200 (JReviews id (title m) (reviews m)))
     end)
    (fun err => mkResponse 500 (JError err)).

(** The routes the single-file server registers on [app]. *)
Definition router (env : Env) (req : Request) : Handler :=
  match req with
  | GetMovies => get_movies
  | GetMovie id => get_movie id
  | PostMovies body => post_movies env body
  | PutMovie id body => put_movie env id body
  | DeleteMovie id => delete_movie id
  | GetReviews id => get_reviews id
  | PostReviews id body => Server.post_reviews env id body
  | PatchReview movieId reviewId body =>
      Server.patch_review env movieId reviewId body
  | DeleteReview movieId reviewId => Server.delete_review env movieId reviewId
  end.

End ServerMovies.

(** ** Requests served one after the other *)

Module Serve.
Import Js Mongoose Http Api.

(** A request as it arrives: whether the server answers while it is served,
    what it draws from its environment, and the request itself. *)
Record Arrival : Type := mkArrival {
  online : bool;
  arrival_env : Env;
  request : Request
}.

Definition step (a : Arrival) (w : World) : World :=
  (router (arrival_env a) (request a)
     (mkWorld (collection w) (online a) (issued w))).2.

Fixpoint serve (l : list Arrival) (w : World) : World :=
  match l with
  | [] => w
  | a :: l' => serve l' (step a w)
  end.

(** Every document is stored under its own [_id]. *)
Definition keyed_by_id (c : gmap ObjectId Movie) : Prop :=
  forall k m, c !! k = Some m -> _id m = k.

(** No two stored documents share a title. *)
Definition unique_titles (c : gmap ObjectId Movie) : Prop :=
  forall k1 k2 m1 m2,
    c !! k1 = Some m1 -> c !! k2 = Some m2 -> title m1 = title m2 -> k1 = k2.

(** No stored document has the empty title. *)
Definition titles_present (c : gmap ObjectId Movie) : Prop :=
  forall k m, c !! k = Some m -> title m <> "".

(** The requests that write to the reviews of a movie. *)
Definition writes_reviews (req : Request) : Prop :=
  match req with
  | PostReviews _ _ | PatchReview _ _ _ | DeleteReview _ _ => True
  | _ => False
  end.

(** The requests that only read. *)
Definition reads_only (req : Request) : Prop :=
  match req with
  | GetMovies | GetMovie _ | GetReviews _ => True
  | _ => False
  end.

End Serve.

(** ** [api/index.js]: the serverless entry point *)

Module Serverless.
Import Js Mongoose Http Api.

Inductive Log : Type :=
| LogConnected                    (* console.log: connected *)
| LogConnectionError (e : Error). (* console.error: connection error *)

(** The module-level state: the flag [isConnected], and with it what the
    process has done so far: the calls of [mongoose.connect] it has made and
    the lines it has logged. *)
Record Process : Type := mkProcess {
  isConnected : bool;
  connectCalls : nat;
  console : list Log
}.

(** [connectDB], given what [mongoose.connect] answers if it is called. *)
Definition connectDB (outcome : Result unit) (p : Process)
  : Result unit * Process :=
  if isConnected p then (Ok tt, p)
  else
    match outcome with
    | Ok _ =>
        (Ok tt, mkProcess true (S (connectCalls p)) (console p ++ [LogConnected]))
    | Throw err =>
        (Throw err,
         mkProcess false (S (connectCalls p))
           (console p ++ [LogConnectionError err]))
    end.

(** One invocation of the exported function: which connection outcome, clock
    and request it meets. *)
Record Invocation : Type := mkInvocation {
  connect_outcome : Result unit;
  invocation_env : Env;
  invocation_request : Request
}.

(** [module.exports = async (req, res) => { await connectDB(); return
    app(req, res); }]: when [connectDB] throws, the function rejects and the
    application is not entered. *)
Definition handler (i : Invocation) (p : Process) (w : World)
  : option Response * Process * World :=
  match connectDB (connect_outcome i) p with
  | (Ok _, p') =>
      let rw := router (invocation_env i) (invocation_request i) w in
      (Some rw.1, p', rw.2)
  | (Throw _, p') => (None, p', w)
  end.

(** A sequence of invocations of the same process. *)
Fixpoint invoke (l : list Invocation) (p : Process) (w : World)
  : list (option Response) * Process * World :=
  match l with
  | [] => ([], p, w)
  | i :: l' =>
      let '(r, p', w') := handler i p w in
      let '(rs, p'', w'') := invoke l' p' w' in
      (r :: rs, p'', w'')
  end.

(** The answers of the application to the same requests, with no entry point
    in front. *)
Fixpoint answers (l : list Invocation) (w : World) : list (option Response) * World :=
  match l with
  | [] => ([], w)
  | i :: l' =>
      let rw := router (invocation_env i) (invocation_request i) w in
      let '(rs, w') := answers l' rw.2 in
      (Some rw.1 :: rs, w')
  end.

(** An invocation at which [mongoose.connect], if called, throws. *)
Definition failing (i : Invocation) : Prop :=
  exists e, connect_outcome i = Throw e.

(** The line [connectDB] logs when it calls [mongoose.connect]. *)
Definition connection_log (i : Invocation) : Log :=
  match connect_outcome i with
  | Ok _ => LogConnected
  | Throw e => LogConnectionError e
  end.

End Serverless.

(** ** Facts about the coercions *)

Section JsFacts.
Import Js.

Lemma num_ltb_irrefl n : num_ltb n n = false.
Proof.
  destruct n as [|q|]; try reflexivity.
  unfold num_ltb. rewrite (proj1 (Qeq_alt q q) (Qeq_refl q)). reflexivity.
Qed.



Lemma num_leb_not_ltb a b : num_leb a b = true -> num_ltb b a = false.
Proof. unfold num_leb. apply negb_true_iff. Qed.

(** Comparing with a number literal goes through [ToNumber]. *)
Lemma lt_literal v k :
  lt v (num k) =
    match ToNumber v with Some n => num_ltb n (Finite (k # 1)) | None => false end.
Proof. destruct v as [| |[]|n|s]; reflexivity. Qed.

Lemma gt_literal v k :
  gt v (num k) =
    match ToNumber v with Some n => num_ltb (Finite (k # 1)) n | None => false end.
Proof.
  unfold gt. destruct v as [| |[]|n|s]; reflexivity.
Qed.

(** A value that is present and falsy compares below [1]. *)
Lemma falsy_lt_1 v :
  is_undefined v = false -> Js.not v = true -> lt v (num 1) = true.
Proof.
  destruct v as [| |[]|[|q|]|s]; simpl; try discriminate; try reflexivity.
  - intros _ H. unfold Js.not in H. simpl in H.
    rewrite negb_involutive in H. apply Qeq_bool_eq in H.
    unfold lt; simpl. apply (proj1 (Qeq_alt _ _)) in H.
    assert (Hq : (q ?= 1)%Q = (0 ?= 1)%Q).
    { unfold Qcompare in *. simpl in *. apply Z.compare_eq in H.
      assert (Qnum q = 0) by lia. rewrite H0. reflexivity. }
    rewrite Hq. reflexivity.
  - intros _ H. unfold Js.not in H. simpl in H.
    rewrite negb_involutive in H. apply String.eqb_eq in H. subst s.
    reflexivity.
Qed.

Lemma str_ltb_irrefl a : str_ltb a a = false.
Proof.
  induction a as [|c a IH]; simpl; [reflexivity|].
  rewrite Nat.compare_refl. exact IH.
Qed.

Lemma str_ltb_asym a : forall b, str_ltb a b = true -> str_ltb b a = false.
Proof.
  induction a as [|x a IH]; intros [|y b]; simpl; try congruence.
  rewrite (Nat.compare_antisym (nat_of_ascii x) (nat_of_ascii y)).
  destruct (nat_of_ascii x ?= nat_of_ascii y)%nat; simpl; auto; discriminate.
Qed.

Lemma str_ltb_trans a : forall b c,
  str_ltb a b = true -> str_ltb b c = true -> str_ltb a c = true.
Proof.
  induction a as [|x a IH]; intros [|y b] [|z c]; simpl; try congruence.
  destruct (nat_of_ascii x ?= nat_of_ascii y)%nat eqn:Hxy;
    destruct (nat_of_ascii y ?= nat_of_ascii z)%nat eqn:Hyz;
    try discriminate; intros H1 H2.
  - apply Nat.compare_eq in Hxy, Hyz. rewrite Hxy, Hyz, Nat.compare_refl. eauto.
  - apply Nat.compare_eq in Hxy. rewrite Hxy, Hyz. reflexivity.
  - apply Nat.compare_eq in Hyz. rewrite <- Hyz, Hxy. reflexivity.
  - apply Nat.compare_lt_iff in Hxy, Hyz.
    assert (H : (nat_of_ascii x ?= nat_of_ascii z)%nat = Lt)
      by (apply Nat.compare_lt_iff; lia).
    rewrite H. reflexivity.
Qed.

(** Two strings neither of which is below the other are the same string. *)
Lemma str_ltb_total a : forall b,
  str_ltb a b = false -> str_ltb b a = false -> a = b.
Proof.
  induction a as [|x a IH]; intros [|y b]; simpl; try congruence.
  rewrite (Nat.compare_antisym (nat_of_ascii x) (nat_of_ascii y)).
  destruct (nat_of_ascii x ?= nat_of_ascii y)%nat eqn:Hxy; simpl;
    try discriminate.
  intros H1 H2. apply Nat.compare_eq in Hxy.
  f_equal; [|auto].
  rewrite <- (ascii_nat_embedding x), <- (ascii_nat_embedding y), Hxy.
  reflexivity.
Qed.

End JsFacts.

(** ** Running a handler *)

Import Js Mongoose Http Api.

Ltac run_handler :=
  unfold Routes.get_movies, Routes.get_movie, Routes.post_movies,
    Routes.put_movie, Routes.delete_movie, Routes.get_reviews,
    Routes.post_reviews, Routes.patch_review, Routes.delete_review,
    Server.post_reviews, Server.patch_review, Server.delete_review,
    Moby.get_movie,
    Model.find_sort_title, Model.findById, Model.save,
    Model.findByIdAndUpdate_title, Model.findByIdAndDelete,
    Model.findByIdAndUpdate_push, Model.findOneAndUpdate_set,
    Model.findByIdAndUpdate_pull,
    try_catch, respond, movie_not_found,
    mbind, M_bind, mret, M_ret, issue, cast_id, server, write, check, lift,
    throw in *;
  cbn [collection connected issued fst snd status json] in *.

(** ** The guards *)

(** C10, as the code has it: the guard of the PATCH handler of the
    single-file server rejects every body that the guard of
    [routes/movieRoutes.js] rejects, and besides those exactly the bodies
    with no rating and a comment that is present but falsy ([null], [false],
    [0], the empty string). *)
Theorem patch_guards_compared (body : Body) :
  Server.patch_review_invalid body =
    Routes.patch_review_invalid body
    || (is_undefined (body_rating body)
        && negb (is_undefined (body_comment body))
        && Js.not (body_comment body)).
Proof.
  unfold Server.patch_review_invalid, Routes.patch_review_invalid.
  destruct body as [t r c]; cbn [body_rating body_comment].
  destruct (is_undefined r) eqn:Hr.
  - destruct r; try discriminate. cbn.
    destruct c as [| |[]|[|q|]|s]; cbn; try reflexivity;
      destruct (negb _); reflexivity.
  - cbn [negb andb orb].
    destruct (Js.not r) eqn:Hn.
    + rewrite (falsy_lt_1 r Hr Hn). reflexivity.
    + cbn. rewrite !orb_false_r. reflexivity.
Qed.

(** C10, as stated, fails: with the body [{ comment: false }] on an existing
    review the handler of [routes/movieRoutes.js] answers 200 and the one of
    the single-file server answers 400; with [{ comment: "" }] the guards
    already differ. *)
Lemma patch_handlers_differ :
  status (Routes.patch_review Sample.env Sample.inception_id Sample.review_id
            Sample.comment_false Sample.world).1 = 200
  /\ status (Server.patch_review Sample.env Sample.inception_id Sample.review_id
               Sample.comment_false Sample.world).1 = 400
  /\ Routes.patch_review_invalid Sample.comment_empty = false
  /\ Server.patch_review_invalid Sample.comment_empty = true.
Proof. vm_compute. repeat split; reflexivity. Qed.

(** ** Reading one movie *)

(** C6, as the code has it: the read handler answers 404 exactly when the
    identifier is well formed, the server answers and no document has that
    identifier; it answers 500 exactly when the identifier is malformed or
    the server does not answer; the handler of the smaller single-file
    server is the same function. *)
Theorem get_movie_outcomes (id : string) (w : World) :
  (status (Routes.get_movie id w).1 = 404 <->
     exists k, castObjectId id = Some k /\ connected w = true
               /\ collection w !! k = None)
  /\ (status (Routes.get_movie id w).1 = 500 <->
        castObjectId id = None \/ connected w = false)
  /\ Moby.get_movie id w = Routes.get_movie id w.
Proof.
  split; [|split]; [| |reflexivity]; run_handler.
  - destruct (castObjectId id) as [k|] eqn:Hk; cbn.
    + destruct (connected w) eqn:Hc; cbn.
      * destruct (collection w !! k) eqn:Hm; cbn; split.
        -- discriminate.
        -- intros (k' & Hk' & _ & Hn). congruence.
        -- intros _. eauto.
        -- reflexivity.
      * split; [discriminate|]. intros (k' & _ & ? & _). discriminate.
    + split; [discriminate|]. intros (k' & ? & _). discriminate.
  - destruct (castObjectId id) as [k|] eqn:Hk; cbn.
    + destruct (connected w) eqn:Hc; cbn.
      * destruct (collection w !! k) eqn:Hm; cbn; split;
          try discriminate; intros [?|?]; discriminate.
      * split; auto.
    + split; auto.
Qed.

(** C6, as stated, fails: the malformed identifier [abc] gets 500, not 404,
    from a server that answers. *)
Lemma get_movie_malformed_id :
  connected Sample.world = true
  /\ castObjectId "abc" = None
  /\ status (Routes.get_movie "abc" Sample.world).1 = 500
  /\ status (Moby.get_movie "abc" Sample.world).1 = 500.
Proof. vm_compute. repeat split; reflexivity. Qed.

(** ** Adding a review *)

(** X21: a body whose rating is missing, whose comment is missing, or whose
    rating coerces to a number below 1 or above 5, gets 400 before any call
    on the model, from either copy of the handler, and the world (so every
    sequence of reviews) is as it was; a body with a numeric rating within
    [1, 5] and a text comment, sent for an existing movie to a server that
    answers, gets 200 and the review is appended after the stored ones. *)
Theorem post_reviews_guard (env : Env) (id : string) (w : World) :
  (forall body,
      (body_rating body = VUndefined
       \/ body_comment body = VUndefined
       \/ exists n, ToNumber (body_rating body) = Some n
                    /\ (num_ltb n (Finite 1) = true \/ num_ltb (Finite 5) n = true)) ->
      Routes.post_reviews env id body w
        = (mkResponse 400 (JMessage "INVALID COMMENT AND/OR RATING!"), w)
      /\ Server.post_reviews env id body w
        = (mkResponse 400 (JMessage "INVALID COMMENT AND/OR RATING!"), w))
  /\ (forall k m n s,
        num_leb (Finite 1) n = true -> num_leb n (Finite 5) = true ->
        connected w = true ->
        castObjectId id = Some k ->
        collection w !! k = Some m ->
        let m' := mkMovie (_id m) (title m)
                    (reviews m ++ [mkReview (fresh env) (VNum n) (VStr s)])
                    (createdAt m) (now env) in
        Routes.post_reviews env id (review_body (Some n) (Some s)) w
          = (mkResponse 200 (JMovie m'),
             mkWorld (<[k := m']> (collection w)) true
               (issued w ++ [CPushReview id (VNum n) (VStr s)]))
        /\ Server.post_reviews env id (review_body (Some n) (Some s)) w
          = Routes.post_reviews env id (review_body (Some n) (Some s)) w).
Proof.
  split.
  - intros body H.
    assert (Hg : Routes.post_reviews_invalid body = true).
    { unfold Routes.post_reviews_invalid.
      destruct H as [H|[H|(n & Hn & H)]].
      - rewrite H. reflexivity.
      - rewrite H. cbn. rewrite orb_true_r. reflexivity.
      - rewrite lt_literal, gt_literal, Hn.
        destruct H as [H|H]; rewrite H; rewrite ?orb_true_r; reflexivity. }
    unfold Routes.post_reviews, Server.post_reviews.
    change (Server.post_reviews_invalid body)
      with (Routes.post_reviews_invalid body).
    rewrite Hg. split; reflexivity.
  - intros k m n s H1 H5 Hc Hk Hm. cbn zeta. split; [|reflexivity].
    unfold Routes.post_reviews, Routes.post_reviews_invalid, review_body;
      cbn [body_rating body_comment is_undefined orb].
    unfold gt, lt; cbn [ToNumber num].
    rewrite (num_leb_not_ltb _ _ H1), (num_leb_not_ltb _ _ H5).
    run_handler. rewrite Hk. cbn. rewrite Hc. cbn. rewrite Hm. reflexivity.
Qed.

Lemma post_reviews_guard_witness :
  Routes.post_reviews Sample.env Sample.inception_id
    (review_body (Some (Finite 6)) (Some "Great")) Sample.world
  = (mkResponse 400 (JMessage "INVALID COMMENT AND/OR RATING!"), Sample.world)
  /\ (Routes.post_reviews Sample.env Sample.inception_id
        (review_body (Some (Finite 3)) (Some "")) Sample.world).1
     = mkResponse 200
         (JMovie (mkMovie 161%N "Inception"
                    [Sample.great; mkReview 163%N (VNum (Finite 3)) (VStr "")]
                    10 30)).
Proof.
  destruct (post_reviews_guard Sample.env Sample.inception_id Sample.world)
    as [Hbad Hgood].
  split.
  - apply (Hbad (review_body (Some (Finite 6)) (Some "Great"))).
    right; right. exists (Finite 6). split; [reflexivity|]. right. reflexivity.
  - destruct (Hgood 161%N Sample.inception (Finite 3) "") as [H _];
      [reflexivity..|].
    rewrite H. reflexivity.
Defined.

(** C4 asks that an empty comment be rejected with 400 before any store
    operation; the code stores it.  The body [{ rating: 3, comment: "" }]
    passes the guard, which tests the comment against [undefined] only; the
    model is called, the answer is 200 and the stored movie has one review
    more, with the empty comment; the copy in the single-file server does
    the same.  The schema of a review declares the comment required, which
    the empty text does not satisfy, and the update of a review, which runs
    the validators, refuses the same comment with 400. *)
Theorem post_reviews_stores_empty_comment :
  Routes.post_reviews_invalid Sample.rated_3_no_text = false
  /\ (Routes.post_reviews Sample.env Sample.inception_id Sample.rated_3_no_text
        Sample.world).1
     = mkResponse 200
         (JMovie (mkMovie 161%N "Inception"
                    [Sample.great; mkReview 163%N (num 3) (VStr "")] 10 30))
  /\ issued (Routes.post_reviews Sample.env Sample.inception_id
               Sample.rated_3_no_text Sample.world).2
     = [CPushReview Sample.inception_id (num 3) (VStr "")]
  /\ collection (Routes.post_reviews Sample.env Sample.inception_id
                   Sample.rated_3_no_text Sample.world).2 !! 161%N
     = Some (mkMovie 161%N "Inception"
               [Sample.great; mkReview 163%N (num 3) (VStr "")] 10 30)
  /\ Server.post_reviews Sample.env Sample.inception_id Sample.rated_3_no_text
       Sample.world
     = Routes.post_reviews Sample.env Sample.inception_id Sample.rated_3_no_text
         Sample.world
  /\ validate_required_string (VStr "") = false
  /\ Routes.patch_review Sample.env Sample.inception_id Sample.review_id
       Sample.comment_empty Sample.world
     = (mkResponse 400 (JError ValidationError),
        mkWorld (collection Sample.world) true
          [CSetReview Sample.inception_id Sample.review_id None
             (Some (VStr ""))]).
Proof. vm_compute. repeat split; reflexivity. Qed.

(** ** Updating a review *)

Lemma existsb_matches_false rid l :
  existsb (Model.matches rid) l = false <-> no_review rid l.
Proof.
  unfold no_review. induction l as [|r l IH]; cbn.
  - split; [constructor | reflexivity].
  - rewrite orb_false_iff, IH. unfold Model.matches.
    rewrite N.eqb_neq. split.
    + intros [? ?]. constructor; assumption.
    + intros H. inversion H; subst. split; assumption.
Qed.

(** A valid body passes the guard, the casts and the validators. *)
Lemma valid_patch_accepted r c :
  valid_patch r c ->
  Routes.patch_review_invalid (review_body r c) = false
  /\ Model.cast_field castNumber (Model.set_rating (Routes.updateFields (review_body r c)))
     = Ok (VNum <$> r)
  /\ Model.cast_field castString (Model.set_comment (Routes.updateFields (review_body r c)))
     = Ok (VStr <$> c)
  /\ Model.validate_field validate_rating (VNum <$> r) = true
  /\ Model.validate_field validate_required_string (VStr <$> c) = true.
Proof.
  intros (Hsome & Hr & Hc).
  unfold Routes.patch_review_invalid, Routes.updateFields, review_body;
    cbn [body_rating body_comment Model.set_rating Model.set_comment].
  assert (Hs : forall s, c = Some s -> negb (String.eqb s "") = true).
  { intros s E. apply negb_true_iff, String.eqb_neq, (Hc s E). }
  assert (Hn : forall n, r = Some n ->
            lt (VNum n) (num 1) = false /\ gt (VNum n) (num 5) = false
            /\ validate_rating (VNum n) = true).
  { intros n E. destruct (Hr n E) as [H1 H5].
    unfold gt, lt, validate_rating; cbn [ToNumber num].
    rewrite (num_leb_not_ltb _ _ H1), (num_leb_not_ltb _ _ H5), H1, H5.
    repeat split. }
  destruct r as [n|], c as [s|]; cbn -[lt gt validate_rating];
    try (destruct Hsome as [[? ?]|[? ?]]; discriminate);
    try destruct (Hn n eq_refl) as (-> & -> & ->);
    try rewrite (Hs s eq_refl); repeat split.
Qed.

(** What the PATCH handler does with a valid body, well-formed identifiers
    and a server that answers. *)
Lemma patch_review_valid env movieId reviewId k rid r c w :
  valid_patch r c ->
  connected w = true ->
  castObjectId movieId = Some k ->
  castObjectId reviewId = Some rid ->
  Routes.patch_review env movieId reviewId (review_body r c) w =
    let log := issued w ++ [CSetReview movieId reviewId (VNum <$> r) (VStr <$> c)] in
    match collection w !! k with
    | Some m =>
        if existsb (Model.matches rid) (reviews m) then
          let m' := mkMovie (_id m) (title m)
                      (Model.update_first rid
                         (Model.mkUpdateFields (VNum <$> r) (VStr <$> c)) (reviews m))
                      (createdAt m) (now env) in
          (mkResponse 200 (JMovie m'), mkWorld (<[k := m']> (collection w)) true log)
        else (mkResponse 404 (JMessage "MOVIE or REVIEW NOT FOUND!"),
              mkWorld (collection w) true log)
    | None => (mkResponse 404 (JMessage "MOVIE or REVIEW NOT FOUND!"),
               mkWorld (collection w) true log)
    end.
Proof.
  intros Hv Hc Hk Hrid.
  destruct (valid_patch_accepted r c Hv) as (Hg & _ & _ & Hvr & Hvc).
  unfold Routes.patch_review. rewrite Hg. run_handler.
  rewrite Hk, Hrid.
  destruct r as [n|], c as [s|];
    cbn -[validate_rating validate_required_string] in *;
    rewrite ?Hvr, ?Hvc, Hc; cbn;
    (destruct (collection w !! k) as [m|]; [|reflexivity]);
    destruct (existsb _ _); reflexivity.
Qed.

Lemma update_first_length rid f l :
  length (Model.update_first rid f l) = length l.
Proof.
  induction l as [|r l IH]; cbn; [reflexivity|].
  destruct (Model.matches rid r); cbn; congruence.
Qed.

(** The positional update touches the first review with the identifier and
    no other element. *)
Lemma update_first_lookup rid f (l : list Review) : forall (i : nat) old,
  l !! i = Some old ->
  r_id old = rid ->
  (forall (j : nat) r, (j < i)%nat -> l !! j = Some r -> r_id r <> rid) ->
  existsb (Model.matches rid) l = true
  /\ Model.update_first rid f l !! i = Some (Model.apply_fields f old)
  /\ forall j : nat, j <> i -> Model.update_first rid f l !! j = l !! j.
Proof.
  induction l as [|r l IH]; intros i old Hi Hid Hfirst; [discriminate|].
  cbn [existsb Model.update_first].
  destruct i as [|i].
  - cbn in Hi. injection Hi as ->.
    assert (Hm : Model.matches rid old = true)
      by (unfold Model.matches; apply N.eqb_eq, Hid).
    rewrite Hm. repeat split.
    intros [|j] Hj; [congruence|reflexivity].
  - assert (Hm : Model.matches rid r = false).
    { unfold Model.matches. apply N.eqb_neq.
      apply (Hfirst 0%nat r); [lia|reflexivity]. }
    rewrite Hm. cbn in Hi.
    destruct (IH i old Hi Hid) as (He & Hl & Ho).
    { intros j r' Hj Hr'. apply (Hfirst (S j) r'); [lia|exact Hr']. }
    rewrite He. repeat split; [exact Hl|].
    intros [|j] Hj; [reflexivity|]. cbn. apply Ho. congruence.
Qed.

(** C2, as the code has it: with a valid body, well-formed identifiers and a
    server that answers, patching the review that is the first with the
    given identifier answers 200 with the stored movie in which that review
    has the supplied fields and keeps the others, every other review is at
    its place unchanged, identifier, title and creation time of the movie
    are unchanged, its [updatedAt] is the time of the request, and every
    other document is unchanged. *)
Theorem patch_review_frame env movieId reviewId k rid r c w m (i : nat) old :
  valid_patch r c ->
  connected w = true ->
  castObjectId movieId = Some k ->
  castObjectId reviewId = Some rid ->
  collection w !! k = Some m ->
  reviews m !! i = Some old ->
  r_id old = rid ->
  (forall (j : nat) x, (j < i)%nat -> reviews m !! j = Some x -> r_id x <> rid) ->
  exists m',
    (Routes.patch_review env movieId reviewId (review_body r c) w).1
      = mkResponse 200 (JMovie m')
    /\ collection (Routes.patch_review env movieId reviewId (review_body r c) w).2
         !! k = Some m'
    /\ reviews m' !! i
       = Some (mkReview (r_id old)
                 (match r with Some n => VNum n | None => rating old end)
                 (match c with Some s => VStr s | None => comment old end))
    /\ length (reviews m') = length (reviews m)
    /\ (forall j : nat, j <> i -> reviews m' !! j = reviews m !! j)
    /\ _id m' = _id m /\ title m' = title m /\ createdAt m' = createdAt m
    /\ updatedAt m' = now env
    /\ (forall k', k' <> k ->
          collection (Routes.patch_review env movieId reviewId (review_body r c) w).2
            !! k' = collection w !! k').
Proof.
  intros Hv Hc Hk Hrid Hm Hi Hid Hfirst.
  rewrite (patch_review_valid env movieId reviewId k rid r c w Hv Hc Hk Hrid).
  cbn zeta. rewrite Hm.
  destruct (update_first_lookup rid (Model.mkUpdateFields (VNum <$> r) (VStr <$> c))
              (reviews m) i old Hi Hid Hfirst) as (He & Hl & Ho).
  rewrite He. eexists. cbn [fst snd collection].
  split; [reflexivity|]. split; [apply lookup_insert_eq|].
  cbn [reviews _id title createdAt updatedAt].
  split; [rewrite Hl; destruct r, c; reflexivity|].
  split; [apply update_first_length|].
  split; [exact Ho|].
  repeat split. intros k' Hk'. apply lookup_insert_ne. congruence.
Qed.

Lemma patch_review_frame_witness :
  exists m',
    (Routes.patch_review Sample.env Sample.inception_id Sample.review_id
       (review_body None (Some "x")) Sample.world).1
      = mkResponse 200 (JMovie m')
    /\ reviews m' = [mkReview 162%N (num 5) (VStr "x")]
    /\ updatedAt m' = 30.
Proof.
  destruct (patch_review_frame Sample.env Sample.inception_id Sample.review_id
              161%N 162%N None (Some "x") Sample.world Sample.inception 0%nat
              Sample.great)
    as (m' & Hres & _ & Hi & Hlen & _ & _ & _ & _ & Hup & _).
  - split; [right; eexists; reflexivity|].
    split; [discriminate|]. intros s [= <-]. discriminate.
  - reflexivity.
  - reflexivity.
  - reflexivity.
  - reflexivity.
  - reflexivity.
  - reflexivity.
  - intros j x Hj. lia.
  - exists m'. split; [exact Hres|]. split; [|exact Hup].
    destruct (reviews m') as [|a [|b l]]; cbn in Hlen, Hi; try discriminate.
    injection Hi as ->. reflexivity.
Defined.

(** C2, as stated, fails on [updatedAt]: patching only the comment at time 30
    returns the movie with [updatedAt] 30, where it was 20. *)
Lemma patch_review_touches_updatedAt :
  updatedAt Sample.inception = 20
  /\ (Routes.patch_review Sample.env Sample.inception_id Sample.review_id
        Sample.comment_x Sample.world).1
     = mkResponse 200
         (JMovie (mkMovie 161%N "Inception"
                    [mkReview 162%N (num 5) (VStr "x")] 10 30)).
Proof. vm_compute. split; reflexivity. Qed.

(** What the PATCH handler does with a valid body when an identifier is not
    well formed: the cast of the filter throws and the answer is 400. *)
Lemma patch_review_malformed env movieId reviewId r c w :
  valid_patch r c ->
  castObjectId movieId = None \/ castObjectId reviewId = None ->
  (Routes.patch_review env movieId reviewId (review_body r c) w).1
  = mkResponse 400 (JError CastError).
Proof.
  intros Hv Hbad.
  destruct (valid_patch_accepted r c Hv) as (Hg & _).
  unfold Routes.patch_review. rewrite Hg. run_handler.
  destruct (castObjectId movieId) as [k|]; cbn; [|reflexivity].
  destruct Hbad as [?|Hbad]; [discriminate|]. rewrite Hbad. reflexivity.
Qed.

(** The String cast refuses no JSON scalar. *)
Lemma castString_total v : exists c', castString v = Ok c'.
Proof. destruct v as [| |[]|n|s]; eexists; reflexivity. Qed.

(** The casts of the update throw the cast error and no other. *)
Lemma cast_field_throws cast f e :
  (forall v e', cast v = Throw e' -> e' = CastError) ->
  Model.cast_field cast f = Throw e -> e = CastError.
Proof.
  intros Hcast. destruct f as [v|]; cbn; [|discriminate].
  destruct (cast v) eqn:E; [discriminate|]. intros [= <-]. eapply Hcast, E.
Qed.

Lemma castNumber_throws v e : castNumber v = Throw e -> e = CastError.
Proof.
  destruct v as [| |b|n|s]; unfold castNumber; try discriminate.
  - destruct (ToNumber (VBool b)); [discriminate|]. congruence.
  - destruct s; [discriminate|].
    destruct (ToNumber _); [discriminate|]. congruence.
Qed.

Lemma castString_throws v e : castString v = Throw e -> e = CastError.
Proof. destruct (castString_total v) as (c' & ->). discriminate. Qed.

(** What the PATCH handler does with a body that passes its guard: the
    filter is cast, then the fields of the update are cast and validated,
    and only then is the server asked. *)
Lemma patch_review_run env movieId reviewId body w :
  Routes.patch_review_invalid body = false ->
  Routes.patch_review env movieId reviewId body w =
    let f := Routes.updateFields body in
    let log := issued w
                 ++ [CSetReview movieId reviewId
                       (Model.set_rating f) (Model.set_comment f)] in
    let failed e := (mkResponse 400 (JError e),
                     mkWorld (collection w) (connected w) log) in
    match castObjectId movieId, castObjectId reviewId with
    | Some k, Some rid =>
        match Model.cast_field castNumber (Model.set_rating f) with
        | Throw e => failed e
        | Ok r' =>
            match Model.cast_field castString (Model.set_comment f) with
            | Throw e => failed e
            | Ok c' =>
                if negb (Model.validate_field validate_rating r')
                then failed ValidationError
                else if negb (Model.validate_field validate_required_string c')
                then failed ValidationError
                else if connected w then
                  match collection w !! k with
                  | Some m =>
                      if existsb (Model.matches rid) (reviews m) then
                        let m' := mkMovie (_id m) (title m)
                                    (Model.update_first rid
                                       (Model.mkUpdateFields r' c') (reviews m))
                                    (createdAt m) (now env) in
                        (mkResponse 200 (JMovie m'),
                         mkWorld (<[k := m']> (collection w)) true log)
                      else (mkResponse 404 (JMessage "MOVIE or REVIEW NOT FOUND!"),
                            mkWorld (collection w) true log)
                  | None => (mkResponse 404 (JMessage "MOVIE or REVIEW NOT FOUND!"),
                             mkWorld (collection w) true log)
                  end
                else failed ConnectionError
            end
        end
    | _, _ => failed CastError
    end.
Proof.
  intros Hg. unfold Routes.patch_review. rewrite Hg. run_handler.
  destruct (castObjectId movieId) as [k|]; cbn; [|reflexivity].
  destruct (castObjectId reviewId) as [rid|]; cbn; [|reflexivity].
  destruct (Model.cast_field castNumber _) as [r'|e]; cbn; [|reflexivity].
  destruct (Model.cast_field castString _) as [c'|e]; cbn; [|reflexivity].
  destruct (Model.validate_field validate_rating r'); cbn; [|reflexivity].
  destruct (Model.validate_field validate_required_string c'); cbn;
    [|reflexivity].
  destruct (connected w) eqn:Hc; cbn; [|reflexivity].
  destruct (collection w !! k) as [m|]; [|reflexivity].
  destruct (existsb _ _); reflexivity.
Qed.

(** C3, as the code has it.  A body with neither field, or with a rating
    that coerces to a number below 1 or above 5, gets 400 and the world is
    as it was, no call on the model included.  A body that passes the guard
    gets 404 for an absent movie, or a movie with no review of the given
    identifier, only when both identifiers are well formed, the schema
    accepts the fields of the body and the server answers; the collection
    is then as it was.  It gets 400 instead, whatever the collection holds,
    when an identifier is not well formed and when the schema refuses a
    field; the collection is as it was.  The schema accepts every body with
    a rating within [1, 5] or none, a comment that is not empty or none, and
    one of the two; it refuses the empty comment, which the guard lets
    through. *)
Theorem patch_review_errors env movieId reviewId w :
  (forall body,
      (body_rating body = VUndefined /\ body_comment body = VUndefined)
      \/ (exists n, ToNumber (body_rating body) = Some n
                    /\ (num_ltb n (Finite 1) = true \/ num_ltb (Finite 5) n = true)) ->
      Routes.patch_review env movieId reviewId body w
      = (mkResponse 400 (JMessage "INVALID RATING (must be 1-5) OR MISSING DATA."), w))
  /\ (forall body k rid,
        Routes.patch_review_invalid body = false ->
        schema_accepts body = true ->
        connected w = true ->
        castObjectId movieId = Some k ->
        castObjectId reviewId = Some rid ->
        (collection w !! k = None
         \/ exists m, collection w !! k = Some m /\ no_review rid (reviews m)) ->
        (Routes.patch_review env movieId reviewId body w).1
        = mkResponse 404 (JMessage "MOVIE or REVIEW NOT FOUND!")
        /\ collection (Routes.patch_review env movieId reviewId body w).2
           = collection w)
  /\ (forall body,
        Routes.patch_review_invalid body = false ->
        castObjectId movieId = None \/ castObjectId reviewId = None ->
        (Routes.patch_review env movieId reviewId body w).1
        = mkResponse 400 (JError CastError)
        /\ collection (Routes.patch_review env movieId reviewId body w).2
           = collection w)
  /\ (forall body,
        Routes.patch_review_invalid body = false ->
        schema_accepts body = false ->
        ((Routes.patch_review env movieId reviewId body w).1
         = mkResponse 400 (JError CastError)
         \/ (Routes.patch_review env movieId reviewId body w).1
            = mkResponse 400 (JError ValidationError))
        /\ collection (Routes.patch_review env movieId reviewId body w).2
           = collection w)
  /\ (forall r c,
        valid_patch r c ->
        Routes.patch_review_invalid (review_body r c) = false
        /\ schema_accepts (review_body r c) = true)
  /\ (forall r,
        (forall n, r = Some n ->
           num_leb (Finite 1) n = true /\ num_leb n (Finite 5) = true) ->
        Routes.patch_review_invalid (review_body r (Some "")) = false
        /\ schema_accepts (review_body r (Some "")) = false).
Proof.
  split; [|split; [|split; [|split; [|split]]]].
  - intros body H.
    assert (Hg : Routes.patch_review_invalid body = true).
    { unfold Routes.patch_review_invalid.
      destruct H as [[Hr Hc]|(n & Hn & H)].
      - rewrite Hr, Hc. reflexivity.
      - assert (Hd : is_undefined (body_rating body) = false)
          by (destruct (body_rating body); try reflexivity; discriminate).
        rewrite Hd, lt_literal, gt_literal, Hn.
        destruct H as [H|H]; rewrite H; rewrite ?orb_true_r; reflexivity. }
    unfold Routes.patch_review. rewrite Hg. reflexivity.
  - intros body k rid Hg Hs Hc Hk Hrid Habsent.
    rewrite (patch_review_run env movieId reviewId body w Hg). cbn zeta.
    rewrite Hk, Hrid. unfold schema_accepts in Hs.
    destruct (Model.cast_field castNumber _) as [r'|e]; [|discriminate].
    destruct (Model.cast_field castString _) as [c'|e]; [|discriminate].
    apply andb_true_iff in Hs. destruct Hs as [-> ->]. cbn [negb]. rewrite Hc.
    destruct Habsent as [Hn|(m & Hm & Hno)].
    + rewrite Hn. split; reflexivity.
    + rewrite Hm, (proj2 (existsb_matches_false rid (reviews m)) Hno).
      split; reflexivity.
  - intros body Hg Hbad.
    rewrite (patch_review_run env movieId reviewId body w Hg). cbn zeta.
    destruct (castObjectId movieId) as [k|]; [|split; reflexivity].
    destruct Hbad as [?|Hbad]; [discriminate|]. rewrite Hbad.
    split; reflexivity.
  - intros body Hg Hs.
    rewrite (patch_review_run env movieId reviewId body w Hg). cbn zeta.
    destruct (castObjectId movieId) as [k|]; [|split; [left|]; reflexivity].
    destruct (castObjectId reviewId) as [rid|]; [|split; [left|]; reflexivity].
    unfold schema_accepts in Hs.
    destruct (Model.cast_field castNumber _) as [r'|e] eqn:Er.
    2:{ rewrite (cast_field_throws _ _ _ castNumber_throws Er).
        split; [left|]; reflexivity. }
    destruct (Model.cast_field castString _) as [c'|e] eqn:Ec.
    2:{ rewrite (cast_field_throws _ _ _ castString_throws Ec).
        split; [left|]; reflexivity. }
    destruct (Model.validate_field validate_rating r'); cbn [negb];
      [|split; [right|]; reflexivity].
    cbn in Hs. rewrite Hs. split; [right|]; reflexivity.
  - intros r c Hv.
    destruct (valid_patch_accepted r c Hv) as (Hg & Hr & Hc & Hvr & Hvc).
    split; [exact Hg|]. unfold schema_accepts. rewrite Hr, Hc, Hvr, Hvc.
    reflexivity.
  - intros r Hr. destruct r as [n|].
    + destruct (Hr n eq_refl) as [H1 H5].
      unfold Routes.patch_review_invalid, schema_accepts, Routes.updateFields,
        review_body, gt, lt;
        cbn [body_rating body_comment is_undefined negb orb andb ToNumber num
             Model.set_rating Model.set_comment Model.cast_field castNumber
             castString Model.validate_field validate_required_string
             option_map fmap].
      rewrite (num_leb_not_ltb _ _ H1), (num_leb_not_ltb _ _ H5).
      split; [reflexivity|]. cbn. apply andb_false_r.
    + split; reflexivity.
Qed.

Lemma patch_review_errors_witness :
  Routes.patch_review Sample.env Sample.inception_id Sample.review_id
    (review_body None None) Sample.world
  = (mkResponse 400 (JMessage "INVALID RATING (must be 1-5) OR MISSING DATA."),
     Sample.world)
  /\ (Routes.patch_review Sample.env Sample.inception_id Sample.other_id
        (review_body (Some (Finite 3)) None) Sample.world).1
     = mkResponse 404 (JMessage "MOVIE or REVIEW NOT FOUND!")
  /\ (Routes.patch_review Sample.env "abc" Sample.review_id
        (review_body (Some (Finite 3)) None) Sample.world).1
     = mkResponse 400 (JError CastError)
  /\ (Routes.patch_review Sample.env Sample.other_id Sample.review_id
        (review_body None (Some "")) Sample.world).1
     = mkResponse 400 (JError ValidationError)
  /\ collection (Routes.patch_review Sample.env Sample.other_id Sample.review_id
                   (review_body None (Some "")) Sample.world).2
     = collection Sample.world.
Proof.
  assert (Hv : valid_patch (Some (Finite 3)) None).
  { split; [left; eexists; reflexivity|].
    split; [|discriminate]. intros n [= <-]. split; reflexivity. }
  destruct (patch_review_errors Sample.env Sample.inception_id Sample.review_id
              Sample.world) as (H400 & _).
  destruct (patch_review_errors Sample.env Sample.inception_id Sample.other_id
              Sample.world) as (_ & H404 & _ & _ & Hvalid & _).
  destruct (patch_review_errors Sample.env "abc" Sample.review_id
              Sample.world) as (_ & _ & Hcast & _).
  destruct (patch_review_errors Sample.env Sample.other_id Sample.review_id
              Sample.world) as (_ & _ & _ & Hschema & _ & Hempty).
  destruct (Hvalid _ _ Hv) as [Hg Hs].
  destruct (Hempty None) as [Hg' Hs']; [discriminate|].
  destruct (Hschema _ Hg' Hs') as [Hres Hcol].
  split; [|split; [|split; [|split]]].
  - apply H400. left. split; reflexivity.
  - apply (H404 _ 161%N 163%N Hg Hs).
    + reflexivity.
    + reflexivity.
    + reflexivity.
    + right. exists Sample.inception. split; [reflexivity|].
      repeat constructor. cbn. discriminate.
  - apply (Hcast _ Hg). left. reflexivity.
  - destruct Hres as [Hres|Hres]; [|exact Hres].
    vm_compute in Hres. discriminate.
  - exact Hcol.
Defined.

(** C3, as stated, fails in two ways.  On identifiers that are not well
    formed: the stored movie has no review that [abc] names, and no movie is
    named by [abc], yet the valid body [{ rating: 3 }] gets 400 in both
    cases, not 404.  On a body that the guard lets through and the schema
    refuses: [{ comment: "" }], sent with well-formed identifiers for a movie
    that is absent, and for a stored movie that has no review with the
    identifier, gets 400, not 404; so does [{ rating: "abc" }]. *)
Lemma patch_review_absent_gets_400 :
  collection Sample.world !! 161%N = Some Sample.inception
  /\ collection Sample.world !! 163%N = None
  /\ List.map r_id (reviews Sample.inception) = [162%N]
  /\ castObjectId Sample.inception_id = Some 161%N
  /\ castObjectId Sample.other_id = Some 163%N
  /\ castObjectId "abc" = None
  /\ (Routes.patch_review Sample.env Sample.inception_id "abc"
        (review_body (Some (Finite 3)) None) Sample.world).1
     = mkResponse 400 (JError CastError)
  /\ (Routes.patch_review Sample.env "abc" Sample.review_id
        (review_body (Some (Finite 3)) None) Sample.world).1
     = mkResponse 400 (JError CastError)
  /\ Routes.patch_review_invalid Sample.comment_empty = false
  /\ (Routes.patch_review Sample.env Sample.other_id Sample.review_id
        Sample.comment_empty Sample.world).1
     = mkResponse 400 (JError ValidationError)
  /\ (Routes.patch_review Sample.env Sample.inception_id Sample.other_id
        Sample.comment_empty Sample.world).1
     = mkResponse 400 (JError ValidationError)
  /\ Routes.patch_review_invalid (mkBody VUndefined (VStr "abc") VUndefined)
     = false
  /\ (Routes.patch_review Sample.env Sample.other_id Sample.review_id
        (mkBody VUndefined (VStr "abc") VUndefined) Sample.world).1
     = mkResponse 400 (JError CastError).
Proof. vm_compute. repeat split; reflexivity. Qed.

(** ** Deleting a review *)

Lemma filter_no_review rid l :
  no_review rid l ->
  List.filter (fun r => negb (Model.matches rid r)) l = l.
Proof.
  unfold no_review. induction 1 as [|r l Hr _ IH]; cbn; [reflexivity|].
  unfold Model.matches at 1. rewrite (proj2 (N.eqb_neq _ _) Hr). cbn.
  congruence.
Qed.

Lemma filter_removes_review rid l :
  no_review rid (List.filter (fun r => negb (Model.matches rid r)) l).
Proof.
  unfold no_review. apply List.Forall_forall. intros r Hin.
  apply filter_In in Hin. destruct Hin as [_ Hn].
  apply negb_true_iff in Hn. unfold Model.matches in Hn.
  apply N.eqb_neq, Hn.
Qed.

(** What the delete-review handler answers, case by case. *)
Lemma delete_review_run env movieId reviewId w :
  Routes.delete_review env movieId reviewId w =
    let log := issued w ++ [CPullReview movieId reviewId] in
    match castObjectId movieId, castObjectId reviewId with
    | Some k, Some rid =>
        if connected w then
          match collection w !! k with
          | Some m =>
              let m' := mkMovie (_id m) (title m)
                          (List.filter (fun r => negb (Model.matches rid r)) (reviews m))
                          (createdAt m) (now env) in
              (mkResponse 200 (JMovie m'),
               mkWorld (<[k := m']> (collection w)) true log)
          | None => (movie_not_found, mkWorld (collection w) true log)
          end
        else (mkResponse 500 (JError ConnectionError),
              mkWorld (collection w) false log)
    | _, _ => (mkResponse 500 (JError CastError),
               mkWorld (collection w) (connected w) log)
    end.
Proof.
  run_handler.
  destruct (castObjectId movieId) as [k|]; cbn; [|reflexivity].
  destruct (castObjectId reviewId) as [rid|]; cbn; [|reflexivity].
  destruct (connected w); cbn; [|reflexivity].
  destruct (collection w !! k); reflexivity.
Qed.

(** C1, as the code has it: on a server that answers, for an existing movie
    and a well-formed review identifier, either copy of the handler answers
    200 with the stored movie, from whose reviews those with the identifier
    are gone and the others kept in order; if no review has the identifier
    the reviews are unchanged; a review identifier that is not well formed
    gets 500; and whatever the request, 404 is answered only when no
    document has the movie identifier. *)
Theorem delete_review_succeeds env movieId reviewId w :
  (forall k rid m,
      connected w = true ->
      castObjectId movieId = Some k ->
      castObjectId reviewId = Some rid ->
      collection w !! k = Some m ->
      exists m',
        (Routes.delete_review env movieId reviewId w).1 = mkResponse 200 (JMovie m')
        /\ collection (Routes.delete_review env movieId reviewId w).2 !! k = Some m'
        /\ reviews m' = List.filter (fun r => negb (Model.matches rid r)) (reviews m)
        /\ no_review rid (reviews m')
        /\ (no_review rid (reviews m) -> reviews m' = reviews m)
        /\ _id m' = _id m /\ title m' = title m)
  /\ (castObjectId reviewId = None ->
      (Routes.delete_review env movieId reviewId w).1
      = mkResponse 500 (JError CastError)
      /\ collection (Routes.delete_review env movieId reviewId w).2 = collection w)
  /\ (status (Routes.delete_review env movieId reviewId w).1 = 404 ->
      exists k, castObjectId movieId = Some k /\ collection w !! k = None)
  /\ Server.delete_review env movieId reviewId w
     = Routes.delete_review env movieId reviewId w.
Proof.
  split; [|split; [|split]]; [| | |reflexivity].
  - intros k rid m Hc Hk Hrid Hm.
    rewrite delete_review_run, Hk, Hrid, Hc, Hm. cbn zeta.
    eexists. cbn [fst snd collection reviews _id title].
    split; [reflexivity|]. split; [apply lookup_insert_eq|].
    split; [reflexivity|]. split; [apply filter_removes_review|].
    split; [apply filter_no_review|]. split; reflexivity.
  - intros Hrid. rewrite delete_review_run, Hrid. cbn zeta.
    destruct (castObjectId movieId); split; reflexivity.
  - rewrite delete_review_run. cbn zeta.
    destruct (castObjectId movieId) as [k|]; [|discriminate].
    destruct (castObjectId reviewId) as [rid|]; [|discriminate].
    destruct (connected w); [|discriminate].
    destruct (collection w !! k) eqn:Hm; [discriminate|].
    intros _. exists k. split; [reflexivity|exact Hm].
Qed.

Lemma delete_review_succeeds_witness :
  (exists m',
      (Routes.delete_review Sample.env Sample.inception_id Sample.other_id
         Sample.world).1 = mkResponse 200 (JMovie m')
      /\ reviews m' = [Sample.great])
  /\ (Routes.delete_review Sample.env Sample.inception_id "abc" Sample.world).1
     = mkResponse 500 (JError CastError).
Proof.
  destruct (delete_review_succeeds Sample.env Sample.inception_id Sample.other_id
              Sample.world) as (H & _).
  destruct (delete_review_succeeds Sample.env Sample.inception_id "abc"
              Sample.world) as (_ & Hbad & _).
  split.
  - destruct (H 161%N 163%N Sample.inception)
      as (m' & Hres & _ & _ & _ & Hsame & _).
    + reflexivity.
    + reflexivity.
    + reflexivity.
    + reflexivity.
    + exists m'. split; [exact Hres|]. apply Hsame.
      repeat constructor. cbn. discriminate.
  - apply Hbad. reflexivity.
Defined.

(** C1, as stated, fails on a review identifier that is not well formed: the
    movie exists and no review of it is named by [abc], yet either copy of the
    handler answers 500, not 200. *)
Lemma delete_review_malformed_id :
  collection Sample.world !! 161%N = Some Sample.inception
  /\ castObjectId Sample.inception_id = Some 161%N
  /\ castObjectId "abc" = None
  /\ (Routes.delete_review Sample.env Sample.inception_id "abc" Sample.world).1
     = mkResponse 500 (JError CastError)
  /\ (Server.delete_review Sample.env Sample.inception_id "abc" Sample.world).1
     = mkResponse 500 (JError CastError).
Proof. vm_compute. repeat split; reflexivity. Qed.

(** ** Deleting a movie *)

(** C9: on a server that answers, deleting an existing movie answers 200 with
    the document exactly as it was stored, reviews included, and leaves a
    collection in which that key is free and every other key is as before;
    as long as the server answers, reading the movie or its reviews by the
    same identifier then gets 404. *)
Theorem delete_movie_then_absent id k m w :
  connected w = true ->
  castObjectId id = Some k ->
  collection w !! k = Some m ->
  (Routes.delete_movie id w).1 = mkResponse 200 (JMovie m)
  /\ collection (Routes.delete_movie id w).2 = delete k (collection w)
  /\ (Routes.get_movie id (Routes.delete_movie id w).2).1 = movie_not_found
  /\ (Routes.get_reviews id (Routes.delete_movie id w).2).1 = movie_not_found.
Proof.
  intros Hc Hk Hm.
  assert (Hrun : Routes.delete_movie id w
                 = (mkResponse 200 (JMovie m),
                    mkWorld (delete k (collection w)) true
                      (issued w ++ [CFindByIdAndDelete id]))).
  { run_handler. rewrite Hk. cbn. rewrite Hc. cbn. rewrite Hm. reflexivity. }
  rewrite Hrun. cbn [fst snd collection].
  split; [reflexivity|]. split; [reflexivity|].
  split; run_handler; rewrite Hk; cbn; rewrite lookup_delete_eq; reflexivity.
Qed.

Lemma delete_movie_then_absent_witness :
  (Routes.delete_movie Sample.inception_id Sample.world).1
  = mkResponse 200 (JMovie Sample.inception)
  /\ (Routes.get_movie Sample.inception_id
        (Routes.delete_movie Sample.inception_id Sample.world).2).1
     = movie_not_found.
Proof.
  destruct (delete_movie_then_absent Sample.inception_id 161%N Sample.inception
              Sample.world) as (Hres & _ & Hget & _).
  - reflexivity.
  - reflexivity.
  - reflexivity.
  - split; [exact Hres|exact Hget].
Defined.

(** ** Listing the movies *)

(** [title_le] is the reflexive closure of the code-unit order on titles. *)
Lemma title_le_spec a b :
  Model.title_le a b <-> title a = title b \/ str_ltb (title a) (title b) = true.
Proof.
  unfold Model.title_le. split.
  - intros H. destruct (str_ltb (title a) (title b)) eqn:E; [right; reflexivity|].
    left. apply str_ltb_total; assumption.
  - intros [E|H]; [rewrite E; apply str_ltb_irrefl | apply str_ltb_asym, H].
Qed.

#[local] Instance title_le_total : Total Model.title_le.
Proof.
  intros a b. unfold Model.title_le.
  destruct (str_ltb (title b) (title a)) eqn:E; [right|left; reflexivity].
  apply str_ltb_asym, E.
Qed.

#[local] Instance title_le_trans : Transitive Model.title_le.
Proof.
  intros a b c Hab Hbc. apply title_le_spec in Hab, Hbc. apply title_le_spec.
  destruct Hab as [Eab|Hab], Hbc as [Ebc|Hbc].
  - left. congruence.
  - right. rewrite Eab. exact Hbc.
  - right. rewrite <- Ebc. exact Hab.
  - right. eapply str_ltb_trans; eassumption.
Qed.

(** C8: on a server that answers, the listing is 200 with a list in which
    each title is at most every later title in code-unit order, that is a
    rearrangement of the stored documents, so it holds exactly the documents
    of the collection; the collection is not changed; and when no two stored
    documents share a title, as the unique index has it, any arrangement of
    the stored documents that is sorted by title is this very list, so the
    order in which the documents were created or are enumerated cannot
    show. *)
Theorem get_movies_sorted w :
  connected w = true ->
  exists l,
    (Routes.get_movies w).1 = mkResponse 200 (JMovies l)
    /\ StronglySorted Model.title_le l
    /\ l ≡ₚ Model.documents (collection w)
    /\ (forall m, m ∈ l <-> exists k, collection w !! k = Some m)
    /\ collection (Routes.get_movies w).2 = collection w
    /\ ((forall m1 m2, m1 ∈ Model.documents (collection w) ->
                       m2 ∈ Model.documents (collection w) ->
                       title m1 = title m2 -> m1 = m2) ->
        forall l', StronglySorted Model.title_le l' ->
                   l' ≡ₚ Model.documents (collection w) -> l' = l).
Proof.
  intros Hc. exists (merge_sort Model.title_le (Model.documents (collection w))).
  assert (Hp := merge_sort_Permutation Model.title_le (Model.documents (collection w))).
  assert (Hs : StronglySorted Model.title_le
                 (merge_sort Model.title_le (Model.documents (collection w))))
    by (apply StronglySorted_merge_sort; apply _).
  split; [run_handler; rewrite Hc; reflexivity|].
  split; [exact Hs|].
  split; [exact Hp|].
  split; [|split; [run_handler; rewrite Hc; reflexivity|]].
  - intros m. rewrite Hp. unfold Model.documents. rewrite list_elem_of_fmap. split.
    + intros ([k m'] & -> & Hin). exists k. apply elem_of_map_to_list, Hin.
    + intros (k & Hk). exists (k, m). split; [reflexivity|].
      apply elem_of_map_to_list, Hk.
  - intros Huniq l' Hs' Hp'.
    apply (StronglySorted_unique_strong Model.title_le); try assumption.
    + intros m1 m2 H1 H2 H12 H21. apply Huniq.
      * rewrite <- Hp'. exact H1.
      * rewrite <- Hp. exact H2.
      * unfold Model.title_le in H12, H21. apply str_ltb_total; assumption.
    + rewrite Hp', Hp. reflexivity.
Qed.

Lemma get_movies_sorted_witness :
  Model.documents (collection Sample.shelf)
  ≡ₚ [Sample.movie_b; Sample.movie_a; Sample.movie_c; Sample.movie_B]
  /\ (Routes.get_movies Sample.shelf).1
     = mkResponse 200
         (JMovies [Sample.movie_B; Sample.movie_a; Sample.movie_b;
                   Sample.movie_c])
  /\ StronglySorted Model.title_le
       [Sample.movie_B; Sample.movie_a; Sample.movie_b; Sample.movie_c]
  /\ (forall l', StronglySorted Model.title_le l' ->
                 l' ≡ₚ [Sample.movie_b; Sample.movie_a; Sample.movie_c;
                        Sample.movie_B] ->
                 l' = [Sample.movie_B; Sample.movie_a; Sample.movie_b;
                       Sample.movie_c]).
Proof.
  assert (Hdocs : Model.documents (collection Sample.shelf)
                  ≡ₚ [Sample.movie_b; Sample.movie_a; Sample.movie_c;
                      Sample.movie_B]).
  { unfold Model.documents, Sample.shelf; cbn [collection].
    rewrite !map_to_list_insert, map_to_list_singleton by reflexivity.
    cbn. exact (Permutation_rev [Sample.movie_B; Sample.movie_c;
                                 Sample.movie_a; Sample.movie_b]). }
  destruct (get_movies_sorted Sample.shelf) as (l & Hres & Hs & _ & _ & _ & Hu).
  - reflexivity.
  - assert (E : (Routes.get_movies Sample.shelf).1
                = mkResponse 200
                    (JMovies [Sample.movie_B; Sample.movie_a; Sample.movie_b;
                              Sample.movie_c]))
      by (vm_compute; reflexivity).
    rewrite E in Hres. injection Hres as <-.
    split; [exact Hdocs|]. split; [exact E|]. split; [exact Hs|].
    intros l' Hs' Hp'. apply Hu; [|exact Hs'|rewrite Hdocs; exact Hp'].
    intros m1 m2. rewrite !Hdocs, !elem_of_cons, !elem_of_nil.
    intros [->|[->|[->|[->|[]]]]] [->|[->|[->|[->|[]]]]];
      solve [reflexivity | cbn; discriminate].
Defined.

(** ** Creating a movie *)

Lemma title_taken_spec t k (c : gmap ObjectId Movie) :
  Model.title_taken t k c = true <-> exists k', k' <> k /\ titled c t k'.
Proof.
  unfold Model.title_taken, titled. rewrite existsb_exists. split.
  - intros ([k' m] & Hin & H). cbn in H.
    apply andb_true_iff in H. destruct H as [Ht Hk].
    apply String.eqb_eq in Ht. apply negb_true_iff, N.eqb_neq in Hk.
    apply list_elem_of_In, elem_of_map_to_list in Hin. eauto.
  - intros (k' & Hk & m & Hm & Ht). exists (k', m). split.
    + apply list_elem_of_In, elem_of_map_to_list, Hm.
    + cbn. apply andb_true_iff. split.
      * apply String.eqb_eq, Ht.
      * apply negb_true_iff, N.eqb_neq, Hk.
Qed.

(** What the create handler does with a non-empty text title. *)
Lemma post_movies_run env t w :
  t <> "" ->
  Routes.post_movies env (title_body t) w =
    let log := issued w ++ [CSave (VStr t)] in
    if connected w then
      if bool_decide (is_Some (collection w !! fresh env))
         || Model.title_taken t (fresh env) (collection w)
      then (mkResponse 400 (JError DuplicateKey), mkWorld (collection w) true log)
      else
        let m := mkMovie (fresh env) t [] (now env) (now env) in
        (mkResponse 201 (JMovie m),
         mkWorld (<[fresh env := m]> (collection w)) true log)
    else (mkResponse 400 (JError ConnectionError), mkWorld (collection w) false log).
Proof.
  intros Ht. unfold Routes.post_movies, title_body; cbn [body_title].
  assert (Hn : Js.not (VStr t) = false).
  { unfold Js.not. cbn. rewrite negb_involutive. apply String.eqb_neq, Ht. }
  rewrite Hn. run_handler. cbn [castString validate_required_string].
  apply String.eqb_neq in Ht. rewrite Ht. cbn.
  destruct (connected w); cbn; [|reflexivity].
  destruct (bool_decide _); cbn; [reflexivity|].
  destruct (Model.title_taken _ _ _); reflexivity.
Qed.

(** C5: a body whose title is missing or empty gets 400 and the world is as
    it was, no call on the model included; a title that a stored movie
    already has gets 400 with the duplicate-key error and the collection is
    as it was; after a first creation with a title has answered 201, a
    second creation with that title gets 400 and exactly one stored movie
    has the title; and two different non-empty titles that no stored movie
    has are created one after the other with 201 each, given fresh,
    different identifiers. *)
Theorem post_movies_titles env w :
  (forall body,
      body_title body = VUndefined \/ body_title body = VStr "" ->
      Routes.post_movies env body w
      = (mkResponse 400 (JMessage "TITLE REQUIRED!"), w))
  /\ (forall t k,
        t <> "" -> connected w = true -> titled (collection w) t k ->
        (Routes.post_movies env (title_body t) w).1
        = mkResponse 400 (JError DuplicateKey)
        /\ collection (Routes.post_movies env (title_body t) w).2 = collection w)
  /\ (forall env' t,
        t <> "" ->
        status (Routes.post_movies env (title_body t) w).1 = 201 ->
        (Routes.post_movies env' (title_body t)
           (Routes.post_movies env (title_body t) w).2).1
        = mkResponse 400 (JError DuplicateKey)
        /\ exactly_one_titled
             (collection (Routes.post_movies env' (title_body t)
                            (Routes.post_movies env (title_body t) w).2).2) t)
  /\ (forall env' t1 t2,
        t1 <> "" -> t2 <> "" -> t1 <> t2 ->
        connected w = true ->
        none_titled (collection w) t1 -> none_titled (collection w) t2 ->
        collection w !! fresh env = None ->
        collection w !! fresh env' = None ->
        fresh env <> fresh env' ->
        status (Routes.post_movies env (title_body t1) w).1 = 201
        /\ status (Routes.post_movies env' (title_body t2)
                     (Routes.post_movies env (title_body t1) w).2).1 = 201).
Proof.
  split; [|split; [|split]].
  - intros body H. unfold Routes.post_movies.
    destruct H as [-> | ->]; reflexivity.
  - intros t k Ht Hc Hk. rewrite (post_movies_run env t w Ht), Hc. cbn zeta.
    assert (Hdup : bool_decide (is_Some (collection w !! fresh env))
                   || Model.title_taken t (fresh env) (collection w) = true).
    { destruct (decide (k = fresh env)) as [->|Hne].
      - destruct Hk as (m & Hm & _). rewrite Hm. reflexivity.
      - apply orb_true_iff. right. apply title_taken_spec. eauto. }
    rewrite Hdup. split; reflexivity.
  - intros env' t Ht. rewrite (post_movies_run env t w Ht). cbn zeta.
    destruct (connected w); [|discriminate].
    destruct (bool_decide _ || _) eqn:Hfree; [discriminate|].
    intros _. cbn [fst snd].
    apply orb_false_iff in Hfree. destruct Hfree as [_ Hfree].
    set (m := mkMovie (fresh env) t [] (now env) (now env)).
    assert (Hone : exactly_one_titled (<[fresh env := m]> (collection w)) t).
    { exists (fresh env). split.
      - exists m. split; [apply lookup_insert_eq|reflexivity].
      - intros k' (m' & Hm' & Ht').
        destruct (decide (k' = fresh env)) as [->|Hne]; [reflexivity|].
        rewrite lookup_insert_ne in Hm' by congruence.
        assert (Htaken : Model.title_taken t (fresh env) (collection w) = true)
          by (apply title_taken_spec; exists k'; split; [exact Hne|exists m'; auto]).
        congruence. }
    rewrite (post_movies_run env' t _ Ht). cbn [connected collection issued].
    cbn zeta.
    assert (Hdup : bool_decide (is_Some (<[fresh env := m]> (collection w) !! fresh env'))
                   || Model.title_taken t (fresh env') (<[fresh env := m]> (collection w))
                   = true).
    { destruct (decide (fresh env = fresh env')) as [E|Hne].
      - rewrite <- E, lookup_insert_eq. reflexivity.
      - apply orb_true_iff. right. apply title_taken_spec.
        exists (fresh env). split; [exact Hne|].
        exists m. split; [apply lookup_insert_eq|reflexivity]. }
    rewrite Hdup. cbn [fst snd collection]. split; [reflexivity|exact Hone].
  - intros env' t1 t2 Ht1 Ht2 Hne Hc Hn1 Hn2 Hf1 Hf2 Hff.
    assert (Hfree : forall t k (c : gmap ObjectId Movie),
               none_titled c t -> c !! k = None ->
               bool_decide (is_Some (c !! k)) || Model.title_taken t k c = false).
    { intros t k c Hn Hk. rewrite Hk. cbn.
      apply not_true_iff_false. intros H. apply title_taken_spec in H.
      destruct H as (k' & _ & H). exact (Hn k' H). }
    rewrite (post_movies_run env t1 w Ht1), Hc. cbn zeta.
    rewrite (Hfree t1 (fresh env) (collection w) Hn1 Hf1). cbn [fst snd status].
    split; [reflexivity|].
    rewrite (post_movies_run env' t2 _ Ht2). cbn [connected collection issued].
    cbn zeta. rewrite Hfree; [reflexivity| |].
    + intros k (m & Hm & Ht).
      destruct (decide (k = fresh env)) as [->|Hk].
      * rewrite lookup_insert_eq in Hm. injection Hm as <-. cbn in Ht. congruence.
      * rewrite lookup_insert_ne in Hm by congruence. apply (Hn2 k). exists m. auto.
    + rewrite lookup_insert_ne by exact Hff. exact Hf2.
Qed.

Lemma post_movies_titles_witness :
  status (Routes.post_movies Sample.env (title_body "Heat") Sample.world).1 = 201
  /\ (Routes.post_movies Sample.env (title_body "Inception") Sample.world).1
     = mkResponse 400 (JError DuplicateKey)
  /\ Routes.post_movies Sample.env (title_body "") Sample.world
     = (mkResponse 400 (JMessage "TITLE REQUIRED!"), Sample.world)
  /\ exactly_one_titled
       (collection (Routes.post_movies (mkEnv 40 164%N) (title_body "Heat")
                      (Routes.post_movies Sample.env (title_body "Heat")
                         Sample.world).2).2) "Heat".
Proof.
  destruct (post_movies_titles Sample.env Sample.world) as (Ha & Hb & Hc & Hd).
  assert (Hnone : forall t, t <> "Inception" -> none_titled (collection Sample.world) t).
  { intros t Ht k (m & Hm & Hmt). cbn in Hm.
    apply lookup_singleton_Some in Hm. destruct Hm as [_ <-]. cbn in Hmt. congruence. }
  destruct (Hd (mkEnv 40 164%N) "Heat" "Alien") as [H1 _];
    try discriminate; try reflexivity; try (apply Hnone; discriminate).
  split; [exact H1|]. split; [|split].
  - apply (Hb "Inception" 161%N); [discriminate|reflexivity|].
    exists Sample.inception. split; reflexivity.
  - apply Ha. right. reflexivity.
  - apply (Hc (mkEnv 40 164%N) "Heat"); [discriminate|exact H1].
Defined.

(** ** The ratings that get stored *)






(** C7 asks for whole numbers; the code stores the rating 2.5: adding the
    review [{ rating: 2.5, comment: "ok" }] to the stored movie answers 200
    and the collection then holds a review whose rating is 5/2, which is
    within [1, 5] and is not a whole number. *)
Theorem post_reviews_stores_fraction :
  (Routes.post_reviews Sample.env Sample.inception_id Sample.rated_2_5
     Sample.world).1
  = mkResponse 200
      (JMovie (mkMovie 161%N "Inception"
                 [Sample.great; mkReview 163%N (VNum (Finite (5 # 2))) (VStr "ok")]
                 10 30))
  /\ collection (Routes.post_reviews Sample.env Sample.inception_id
                   Sample.rated_2_5 Sample.world).2 !! 161%N
     = Some (mkMovie 161%N "Inception"
               [Sample.great; mkReview 163%N (VNum (Finite (5 # 2))) (VStr "ok")]
               10 30)
  /\ in_range (VNum (Finite (5 # 2)))
  /\ ~ integral (VNum (Finite (5 # 2))).
Proof.
  split; [vm_compute; reflexivity|]. split; [vm_compute; reflexivity|]. split.
  - exists (5 # 2)%Q. split; [reflexivity|]. split; discriminate.
  - intros (q & z & [= <-] & H). unfold Qeq in H. cbn in H. lia.
Qed.

(** ** What one request does to the world *)

Import Serve.

(** Every request leaves the connection as it is and makes at most one call
    on the model; its effect on the collection is one of four: none, with an
    error status or for a read; the removal of the addressed document; the
    insertion of a new document without reviews under the generated
    identifier; the replacement of the addressed document by one with the
    same identifier and creation time. *)
Lemma router_effect env req w r w' :
  router env req w = (r, w') ->
  connected w' = connected w
  /\ (issued w' = issued w \/ exists c, issued w' = issued w ++ [c])
  /\ ((collection w' = collection w
       /\ (status r = 400 \/ status r = 404 \/ status r = 500
           \/ (status r = 200 /\ reads_only req)))
      \/ (exists id k m,
             req = DeleteMovie id /\ castObjectId id = Some k
             /\ connected w = true
             /\ collection w !! k = Some m
             /\ r = mkResponse 200 (JMovie m)
             /\ collection w' = delete k (collection w))
      \/ (exists body s,
             req = PostMovies body
             /\ connected w = true
             /\ castString (body_title body) = Ok (VStr s) /\ s <> ""
             /\ collection w !! fresh env = None
             /\ Model.title_taken s (fresh env) (collection w) = false
             /\ r = mkResponse 201
                      (JMovie (mkMovie (fresh env) s [] (now env) (now env)))
             /\ collection w'
                = <[fresh env := mkMovie (fresh env) s [] (now env) (now env)]>
                    (collection w))
      \/ (exists k m m',
             connected w = true
             /\ collection w !! k = Some m
             /\ r = mkResponse 200 (JMovie m')
             /\ collection w' = <[k := m']> (collection w)
             /\ _id m' = _id m /\ createdAt m' = createdAt m
             /\ updatedAt m' = now env
             /\ ((exists id body,
                     req = PutMovie id body /\ castObjectId id = Some k
                     /\ reviews m' = reviews m /\ title m' <> ""
                     /\ Model.title_taken (title m') k (collection w) = false)
                 \/ (writes_reviews req /\ title m' = title m)))).
Proof.
  remember (connected w) as cw eqn:Hcw.
  assert (Hfail : forall st j c b l (P : Prop),
             st = 400 \/ st = 404 \/ st = 500 ->
             (mkResponse st j, mkWorld (collection w) b l) = (r, w') ->
             b = cw ->
             l = issued w \/ l = issued w ++ [c] ->
             connected w' = cw
             /\ (issued w' = issued w \/ exists c, issued w' = issued w ++ [c])
             /\ ((collection w' = collection w
                  /\ (status r = 400 \/ status r = 404 \/ status r = 500
                      \/ (status r = 200 /\ reads_only req))) \/ P)).
  { intros st j c b l P Hst [= <- <-] -> Hl. cbn.
    split; [reflexivity|]. split; [destruct Hl as [->| ->]; eauto|].
    left. split; [reflexivity|]. tauto. }
  destruct req as [|id|body|id body|id|id|id body|mid rid body|mid rid];
    cbn [router].
  - run_handler. rewrite <- ?Hcw; destruct cw; cbn.
    + intros [= <- <-]. cbn. split; [reflexivity|].
      split; [eauto|]. left. split; [reflexivity|]. right; right; right.
      split; [reflexivity|exact I].
    + intros H. eapply (Hfail 500 _ CFind); eauto.
  - run_handler.
    destruct (castObjectId id) as [k|]; cbn;
      [|intros H; eapply (Hfail 500 _ (CFindById id)); eauto].
    rewrite <- ?Hcw; destruct cw; cbn;
      [|intros H; eapply (Hfail 500 _ (CFindById id)); eauto].
    destruct (collection w !! k); cbn.
    + intros [= <- <-]. cbn. split; [reflexivity|].
      split; [eauto|]. left. split; [reflexivity|]. right; right; right.
      split; [reflexivity|exact I].
    + intros H. eapply (Hfail 404 _ (CFindById id)); eauto.
  - unfold Routes.post_movies. destruct (Js.not _).
    { unfold respond. intros [= <- <-].
      split; [symmetry; exact Hcw|]. split; [eauto|]. left. tauto. }
    run_handler.
    destruct (castString (body_title body)) as [t'|] eqn:Ht'; cbn;
      [|intros H; eapply (Hfail 400 _ (CSave (body_title body))); eauto].
    destruct (validate_required_string t') eqn:Hv; cbn;
      [|intros H; eapply (Hfail 400 _ (CSave (body_title body))); eauto].
    destruct t' as [| | | |s]; cbn; try discriminate.
    rewrite <- ?Hcw; destruct cw; cbn;
      [|intros H; eapply (Hfail 400 _ (CSave (body_title body))); eauto].
    destruct (bool_decide _) eqn:Hfree; cbn;
      [intros H; eapply (Hfail 400 _ (CSave (body_title body))); eauto|].
    destruct (Model.title_taken _ _ _) eqn:Htaken; cbn;
      [intros H; eapply (Hfail 400 _ (CSave (body_title body))); eauto|].
    intros [= <- <-]. cbn. split; [reflexivity|]. split; [eauto|].
    right; right; left. exists body, s.
    split; [reflexivity|]. split; [reflexivity|]. split; [exact Ht'|].
    split; [cbn in Hv; apply negb_true_iff, String.eqb_neq in Hv; exact Hv|].
    split; [|split; [exact Htaken|split; reflexivity]].
    apply bool_decide_eq_false in Hfree.
    destruct (collection w !! fresh env); [exfalso; apply Hfree; eauto|reflexivity].
  - unfold Routes.put_movie. destruct (Js.not _).
    { unfold respond. intros [= <- <-].
      split; [symmetry; exact Hcw|]. split; [eauto|]. left. tauto. }
    run_handler.
    destruct (castObjectId id) as [k|] eqn:Hk; cbn;
      [|intros H; eapply (Hfail 400 _ (CUpdateTitle id (body_title body))); eauto].
    destruct (castString (body_title body)) as [t'|] eqn:Ht'; cbn;
      [|intros H; eapply (Hfail 400 _ (CUpdateTitle id (body_title body))); eauto].
    destruct (validate_required_string t') eqn:Hv; cbn;
      [|intros H; eapply (Hfail 400 _ (CUpdateTitle id (body_title body))); eauto].
    destruct t' as [| | | |s]; cbn; try discriminate.
    rewrite <- ?Hcw; destruct cw; cbn;
      [|intros H; eapply (Hfail 400 _ (CUpdateTitle id (body_title body))); eauto].
    destruct (collection w !! k) as [m|] eqn:Hm; cbn;
      [|intros H; eapply (Hfail 404 _ (CUpdateTitle id (body_title body))); eauto].
    destruct (Model.title_taken _ _ _) eqn:Htaken; cbn;
      [intros H; eapply (Hfail 400 _ (CUpdateTitle id (body_title body))); eauto|].
    intros [= <- <-]. cbn. split; [reflexivity|]. split; [eauto|].
    right; right; right. eexists k, m, _.
    split; [reflexivity|]. split; [exact Hm|]. split; [reflexivity|].
    split; [reflexivity|]. cbn. repeat (split; [reflexivity|]).
    left. exists id, body. split; [reflexivity|]. split; [exact Hk|].
    split; [reflexivity|]. split; [|exact Htaken].
    cbn in Hv. apply negb_true_iff, String.eqb_neq in Hv. exact Hv.
  - run_handler.
    destruct (castObjectId id) as [k|] eqn:Hk; cbn;
      [|intros H; eapply (Hfail 500 _ (CFindByIdAndDelete id)); eauto].
    rewrite <- ?Hcw; destruct cw; cbn;
      [|intros H; eapply (Hfail 500 _ (CFindByIdAndDelete id)); eauto].
    destruct (collection w !! k) as [m|] eqn:Hm; cbn;
      [|intros H; eapply (Hfail 404 _ (CFindByIdAndDelete id)); eauto].
    intros [= <- <-]. cbn. split; [reflexivity|]. split; [eauto|].
    right; left. exists id, k, m. split; [reflexivity|]. split; [exact Hk|].
    split; [reflexivity|]. split; [exact Hm|]. split; reflexivity.
  - run_handler.
    destruct (castObjectId id) as [k|]; cbn;
      [|intros H; eapply (Hfail 500 _ (CFindById id)); eauto].
    rewrite <- ?Hcw; destruct cw; cbn;
      [|intros H; eapply (Hfail 500 _ (CFindById id)); eauto].
    destruct (collection w !! k); cbn.
    + intros [= <- <-]. cbn. split; [reflexivity|].
      split; [eauto|]. left. split; [reflexivity|]. right; right; right.
      split; [reflexivity|exact I].
    + intros H. eapply (Hfail 404 _ (CFindById id)); eauto.
  - unfold Routes.post_reviews. destruct (Routes.post_reviews_invalid _).
    { unfold respond. intros [= <- <-].
      split; [symmetry; exact Hcw|]. split; [eauto|]. left. tauto. }
    run_handler.
    set (call := CPushReview id (body_rating body) (body_comment body)).
    destruct (castObjectId id) as [k|] eqn:Hk; cbn;
      [|intros H; eapply (Hfail 400 _ call); eauto].
    destruct (castNumber (body_rating body)) as [r'|]; cbn;
      [|intros H; eapply (Hfail 400 _ call); eauto].
    destruct (castString (body_comment body)) as [c'|]; cbn;
      [|intros H; eapply (Hfail 400 _ call); eauto].
    rewrite <- ?Hcw; destruct cw; cbn;
      [|intros H; eapply (Hfail 400 _ call); eauto].
    destruct (collection w !! k) as [m|] eqn:Hm; cbn;
      [|intros H; eapply (Hfail 404 _ call); eauto].
    intros [= <- <-]. cbn. split; [reflexivity|]. split; [eauto|].
    right; right; right. eexists k, m, _.
    split; [reflexivity|]. split; [exact Hm|]. split; [reflexivity|].
    split; [reflexivity|]. cbn. repeat (split; [reflexivity|]).
    right. split; [exact I|reflexivity].
  - unfold Routes.patch_review. destruct (Routes.patch_review_invalid _).
    { unfold respond. intros [= <- <-].
      split; [symmetry; exact Hcw|]. split; [eauto|]. left. tauto. }
    run_handler.
    set (call := CSetReview mid rid _ _).
    destruct (castObjectId mid) as [k|] eqn:Hk; cbn;
      [|intros H; eapply (Hfail 400 _ call); eauto].
    destruct (castObjectId rid) as [rk|] eqn:Hrk; cbn;
      [|intros H; eapply (Hfail 400 _ call); eauto].
    destruct (Model.cast_field castNumber _) as [r'|]; cbn;
      [|intros H; eapply (Hfail 400 _ call); eauto].
    destruct (Model.cast_field castString _) as [c'|]; cbn;
      [|intros H; eapply (Hfail 400 _ call); eauto].
    destruct (Model.validate_field validate_rating r'); cbn;
      [|intros H; eapply (Hfail 400 _ call); eauto].
    destruct (Model.validate_field validate_required_string c'); cbn;
      [|intros H; eapply (Hfail 400 _ call); eauto].
    rewrite <- ?Hcw; destruct cw; cbn;
      [|intros H; eapply (Hfail 400 _ call); eauto].
    destruct (collection w !! k) as [m|] eqn:Hm; cbn;
      [|intros H; eapply (Hfail 404 _ call); eauto].
    destruct (existsb _ _); cbn;
      [|intros H; eapply (Hfail 404 _ call); eauto].
    intros [= <- <-]. cbn. split; [reflexivity|]. split; [eauto|].
    right; right; right. eexists k, m, _.
    split; [reflexivity|]. split; [exact Hm|]. split; [reflexivity|].
    split; [reflexivity|]. cbn. repeat (split; [reflexivity|]).
    right. split; [exact I|reflexivity].
  - run_handler.
    set (call := CPullReview mid rid).
    destruct (castObjectId mid) as [k|] eqn:Hk; cbn;
      [|intros H; eapply (Hfail 500 _ call); eauto].
    destruct (castObjectId rid) as [rk|] eqn:Hrk; cbn;
      [|intros H; eapply (Hfail 500 _ call); eauto].
    rewrite <- ?Hcw; destruct cw; cbn;
      [|intros H; eapply (Hfail 500 _ call); eauto].
    destruct (collection w !! k) as [m|] eqn:Hm; cbn;
      [|intros H; eapply (Hfail 404 _ call); eauto].
    intros [= <- <-]. cbn. split; [reflexivity|]. split; [eauto|].
    right; right; right. eexists k, m, _.
    split; [reflexivity|]. split; [exact Hm|]. split; [reflexivity|].
    split; [reflexivity|]. cbn. repeat (split; [reflexivity|]).
    right. split; [exact I|reflexivity].
Qed.

(** X1: a request that is answered with an error status leaves the collection as
    it was: no handler writes and then fails. *)
Theorem failed_request_changes_nothing env req w :
  status (router env req w).1 <> 200 ->
  status (router env req w).1 <> 201 ->
  collection (router env req w).2 = collection w.
Proof.
  intros H200 H201.
  destruct (router env req w) as [r w'] eqn:Hrun. cbn [fst snd] in *.
  destruct (router_effect env req w r w' Hrun) as (_ & _ & Heff).
  destruct Heff as [[Hsame _]|[(id & k & m & _ & _ & _ & _ & -> & _)
                   |[(body & s & _ & _ & _ & _ & _ & _ & -> & _)
                   |(k & m & m' & _ & _ & -> & _)]]];
    [exact Hsame|..]; cbn in *; congruence.
Qed.

Lemma failed_request_changes_nothing_witness :
  collection (router Sample.env (PostMovies (title_body "Inception"))
                Sample.world).2
  = collection Sample.world.
Proof.
  apply (failed_request_changes_nothing Sample.env
           (PostMovies (title_body "Inception")) Sample.world);
    vm_compute; discriminate.
Defined.

(** X2: the statuses each route can answer: reads answer 200, 404 or 500 (the
    listing never 404), deletions likewise, the creation of a movie 201 or
    400, and the other writes 200, 400 or 404; so no write other than a
    deletion ever answers 500 and no read or deletion ever answers 400. *)
Theorem status_by_route env req w :
  match req with
  | GetMovies =>
      status (router env req w).1 = 200 \/ status (router env req w).1 = 500
  | GetMovie _ | GetReviews _ | DeleteMovie _ | DeleteReview _ _ =>
      status (router env req w).1 = 200 \/ status (router env req w).1 = 404
      \/ status (router env req w).1 = 500
  | PostMovies _ =>
      status (router env req w).1 = 201 \/ status (router env req w).1 = 400
  | PutMovie _ _ | PostReviews _ _ | PatchReview _ _ _ =>
      status (router env req w).1 = 200 \/ status (router env req w).1 = 400
      \/ status (router env req w).1 = 404
  end.
Proof.
  destruct req as [|id|body|id body|id|id|id body|mid rid body|mid rid];
    cbn [router].
  - run_handler. destruct (connected w); cbn; auto.
  - run_handler. destruct (castObjectId id) as [k|]; cbn; auto.
    destruct (connected w); cbn; auto.
    destruct (collection w !! k); cbn; auto.
  - unfold Routes.post_movies. destruct (Js.not _); [cbn; auto|].
    run_handler.
    destruct (castString (body_title body)) as [t'|]; cbn; auto.
    destruct (validate_required_string t'); cbn; auto.
    destruct t' as [| | | |s]; cbn; auto.
    destruct (connected w); cbn; auto.
    destruct (bool_decide _); cbn; auto.
    destruct (Model.title_taken _ _ _); cbn; auto.
  - unfold Routes.put_movie. destruct (Js.not _); [cbn; auto|].
    run_handler.
    destruct (castObjectId id) as [k|]; cbn; auto.
    destruct (castString (body_title body)) as [t'|]; cbn; auto.
    destruct (validate_required_string t'); cbn; auto.
    destruct t' as [| | | |s]; cbn; auto.
    destruct (connected w); cbn; auto.
    destruct (collection w !! k); cbn; auto.
    destruct (Model.title_taken _ _ _); cbn; auto.
  - run_handler. destruct (castObjectId id) as [k|]; cbn; auto.
    destruct (connected w); cbn; auto.
    destruct (collection w !! k); cbn; auto.
  - run_handler. destruct (castObjectId id) as [k|]; cbn; auto.
    destruct (connected w); cbn; auto.
    destruct (collection w !! k); cbn; auto.
  - unfold Routes.post_reviews. destruct (Routes.post_reviews_invalid _);
      [cbn; auto|].
    run_handler. destruct (castObjectId id) as [k|]; cbn; auto.
    destruct (castNumber (body_rating body)) as [r'|]; cbn; auto.
    destruct (castString (body_comment body)) as [c'|]; cbn; auto.
    destruct (connected w); cbn; auto.
    destruct (collection w !! k); cbn; auto.
  - unfold Routes.patch_review. destruct (Routes.patch_review_invalid _);
      [cbn; auto|].
    run_handler. destruct (castObjectId mid) as [k|]; cbn; auto.
    destruct (castObjectId rid) as [rk|]; cbn; auto.
    destruct (Model.cast_field castNumber _) as [r'|]; cbn; auto.
    destruct (Model.cast_field castString _) as [c'|]; cbn; auto.
    destruct (Model.validate_field validate_rating r'); cbn; auto.
    destruct (Model.validate_field validate_required_string c'); cbn; auto.
    destruct (connected w); cbn; auto.
    destruct (collection w !! k) as [m|]; cbn; auto.
    destruct (existsb _ _); cbn; auto.
  - run_handler. destruct (castObjectId mid) as [k|]; cbn; auto.
    destruct (castObjectId rid) as [rk|]; cbn; auto.
    destruct (connected w); cbn; auto.
    destruct (collection w !! k); cbn; auto.
Qed.

(** X3: a request never changes whether the server answers, makes at most one
    call on the model, and, when it is a read, leaves the collection as it
    was whatever it answers. *)
Theorem one_call_per_request env req w :
  connected (router env req w).2 = connected w
  /\ (issued (router env req w).2 = issued w
      \/ exists c, issued (router env req w).2 = issued w ++ [c])
  /\ (reads_only req -> collection (router env req w).2 = collection w).
Proof.
  destruct (router env req w) as [r w'] eqn:Hrun. cbn [fst snd].
  destruct (router_effect env req w r w' Hrun) as (Hc & Hi & Heff).
  split; [exact Hc|]. split; [exact Hi|]. intros Hread.
  destruct Heff as [[Hsame _]|[(id & k & m & -> & _)
                   |[(body & s & -> & _)
                   |(k & m & m' & _ & _ & _ & _ & _ & _ & _ & Hreq)]]];
    [exact Hsame|destruct Hread|destruct Hread|].
  destruct Hreq as [(id & body & -> & _)|[Hw _]]; [destruct Hread|].
  destruct req; cbn in Hw, Hread; contradiction.
Qed.

Lemma one_call_per_request_witness :
  collection (router Sample.env (GetReviews Sample.inception_id) Sample.world).2
  = collection Sample.world.
Proof.
  apply (one_call_per_request Sample.env (GetReviews Sample.inception_id)
           Sample.world).
  exact I.
Defined.

(** X4: a document that is stored before and after a request keeps its
    identifier and its creation time; its title changes only through the
    title update addressed to it, and its reviews change only through a
    request on reviews. *)
Theorem documents_keep_identity env req w k m m' :
  collection w !! k = Some m ->
  collection (router env req w).2 !! k = Some m' ->
  _id m' = _id m /\ createdAt m' = createdAt m
  /\ (title m' <> title m ->
      exists id body, req = PutMovie id body /\ castObjectId id = Some k)
  /\ (reviews m' <> reviews m -> writes_reviews req).
Proof.
  intros Hm Hm'.
  destruct (router env req w) as [r w'] eqn:Hrun. cbn [fst snd] in *.
  destruct (router_effect env req w r w' Hrun) as (_ & _ & Heff).
  assert (Hsame : m' = m ->
            _id m' = _id m /\ createdAt m' = createdAt m
            /\ (title m' <> title m ->
                exists id body, req = PutMovie id body /\ castObjectId id = Some k)
            /\ (reviews m' <> reviews m -> writes_reviews req)).
  { intros ->. repeat split; intros H; contradiction. }
  destruct Heff as [[Hc _]|[(id & k0 & m0 & _ & _ & _ & _ & _ & Hc)
                   |[(body & s & _ & _ & _ & _ & Hfree & _ & _ & Hc)
                   |(k0 & m0 & m1 & _ & Hm0 & _ & Hc & Hid & Hcr & _ & Hreq)]]];
    rewrite Hc in Hm'.
  - apply Hsame. congruence.
  - apply lookup_delete_Some in Hm'. apply Hsame. destruct Hm'. congruence.
  - apply lookup_insert_Some in Hm'. destruct Hm' as [[<- _]|[_ Hm']].
    + congruence.
    + apply Hsame. congruence.
  - apply lookup_insert_Some in Hm'. destruct Hm' as [[<- <-]|[_ Hm']].
    + assert (m0 = m) by congruence. subst m0.
      split; [exact Hid|]. split; [exact Hcr|].
      destruct Hreq as [(id & body & -> & Hk & Hrev & _)|[Hw Ht]].
      * split; [eauto|]. intros H. contradiction.
      * split; [intros H; contradiction|]. intros _. exact Hw.
    + apply Hsame. congruence.
Qed.

Lemma documents_keep_identity_witness :
  collection (router Sample.env
                (PutMovie Sample.inception_id (title_body "Heat"))
                Sample.world).2 !! 161%N
  = Some (mkMovie 161%N "Heat" [Sample.great] 10 30)
  /\ _id (mkMovie 161%N "Heat" [Sample.great] 10 30) = _id Sample.inception
  /\ createdAt (mkMovie 161%N "Heat" [Sample.great] 10 30)
     = createdAt Sample.inception.
Proof.
  destruct (documents_keep_identity Sample.env
              (PutMovie Sample.inception_id (title_body "Heat"))
              Sample.world 161%N Sample.inception
              (mkMovie 161%N "Heat" [Sample.great] 10 30)) as (Hid & Hcr & _).
  - reflexivity.
  - reflexivity.
  - split; [reflexivity|]. split; [exact Hid|exact Hcr].
Defined.

(** X5: a request changes the collection at one key at most. *)
Theorem one_document_per_request env req w :
  exists k0, forall k,
    k <> k0 -> collection (router env req w).2 !! k = collection w !! k.
Proof.
  destruct (router env req w) as [r w'] eqn:Hrun. cbn [fst snd].
  destruct (router_effect env req w r w' Hrun) as (_ & _ & Heff).
  destruct Heff as [[Hc _]|[(id & k0 & m0 & _ & _ & _ & _ & _ & Hc)
                   |[(body & s & _ & _ & _ & _ & _ & _ & _ & Hc)
                   |(k0 & m0 & m1 & _ & _ & _ & Hc & _)]]];
    rewrite Hc.
  - exists 0%N. reflexivity.
  - exists k0. intros k Hk. apply lookup_delete_ne. congruence.
  - exists (fresh env). intros k Hk. apply lookup_insert_ne. congruence.
  - exists k0. intros k Hk. apply lookup_insert_ne. congruence.
Qed.

(** One request keeps the three properties of the collection: documents
    under their own identifier, no two with the same title, none with the
    empty title. *)
Lemma step_keeps_invariants a w :
  keyed_by_id (collection w) ->
  unique_titles (collection w) ->
  titles_present (collection w) ->
  keyed_by_id (collection (step a w))
  /\ unique_titles (collection (step a w))
  /\ titles_present (collection (step a w)).
Proof.
  intros Hkey Huniq Hpres. unfold step.
  set (w0 := mkWorld (collection w) (online a) (issued w)).
  destruct (router (arrival_env a) (request a) w0) as [r w'] eqn:Hrun.
  cbn [fst snd].
  destruct (router_effect _ _ _ r w' Hrun) as (_ & _ & Heff).
  change (collection w0) with (collection w) in Heff.
  destruct Heff as [[Hc _]|[(id & k0 & m0 & _ & _ & _ & _ & _ & Hc)
                   |[(body & s & _ & _ & _ & Hs & Hfree & Htaken & _ & Hc)
                   |(k0 & m0 & m1 & _ & Hm0 & _ & Hc & Hid & _ & _ & Hreq)]]];
    rewrite Hc.
  - auto.
  - split; [|split].
    + intros k m Hm. apply lookup_delete_Some in Hm. apply Hkey, Hm.
    + intros k1 k2 m1 m2 H1 H2. apply lookup_delete_Some in H1, H2.
      apply Huniq; tauto.
    + intros k m Hm. apply lookup_delete_Some in Hm. eapply Hpres, Hm.
  - assert (Hnone : forall k m, collection w !! k = Some m -> title m <> s).
    { intros k m Hm Ht.
      assert (Model.title_taken s (fresh (arrival_env a)) (collection w) = true).
      { apply title_taken_spec. exists k. split; [congruence|]. exists m. auto. }
      congruence. }
    split; [|split].
    + intros k m Hm. apply lookup_insert_Some in Hm.
      destruct Hm as [[<- <-]|[_ Hm]]; [reflexivity|apply Hkey, Hm].
    + intros k1 k2 m1 m2 H1 H2 Ht. apply lookup_insert_Some in H1, H2.
      destruct H1 as [[<- <-]|[_ H1]], H2 as [[<- <-]|[_ H2]].
      * reflexivity.
      * cbn in Ht. exfalso. eapply Hnone; eauto.
      * cbn in Ht. exfalso. eapply Hnone; eauto.
      * eapply Huniq; eauto.
    + intros k m Hm. apply lookup_insert_Some in Hm.
      destruct Hm as [[<- <-]|[_ Hm]]; [exact Hs|eapply Hpres, Hm].
  - assert (Hother : forall k m, k <> k0 -> collection w !! k = Some m ->
                                 title m <> title m1).
    { intros k m Hk Hm Ht.
      destruct Hreq as [(id & body & _ & _ & _ & _ & Htaken)|[_ Hsame]].
      - assert (Model.title_taken (title m1) k0 (collection w) = true).
        { apply title_taken_spec. exists k. split; [exact Hk|]. exists m. auto. }
        congruence.
      - apply Hk. eapply Huniq; eauto. congruence. }
    split; [|split].
    + intros k m Hm. apply lookup_insert_Some in Hm.
      destruct Hm as [[<- <-]|[_ Hm]]; [|apply Hkey, Hm].
      rewrite Hid. apply Hkey, Hm0.
    + intros k1 k2 m2 m3 H1 H2 Ht. apply lookup_insert_Some in H1, H2.
      destruct H1 as [[<- <-]|[Hk1 H1]], H2 as [[<- <-]|[Hk2 H2]].
      * reflexivity.
      * exfalso. eapply (Hother k2 m3); eauto.
      * exfalso. eapply (Hother k1 m2); eauto.
      * eapply Huniq; eauto.
    + intros k m Hm. apply lookup_insert_Some in Hm.
      destruct Hm as [[<- <-]|[_ Hm]]; [|eapply Hpres, Hm].
      destruct Hreq as [(id & body & _ & _ & _ & Hne & _)|[_ Hsame]];
        [exact Hne|]. rewrite Hsame. eapply Hpres, Hm0.
Qed.

(** X6: whatever requests arrive, in whatever order and whether or not the
    server answers them, a collection in which every document is stored
    under its own identifier, no two documents share a title and no title is
    empty stays such a collection; the empty collection is one. *)
Theorem serve_keeps_invariants l : forall w,
  keyed_by_id (collection w) ->
  unique_titles (collection w) ->
  titles_present (collection w) ->
  keyed_by_id (collection (serve l w))
  /\ unique_titles (collection (serve l w))
  /\ titles_present (collection (serve l w)).
Proof.
  induction l as [|a l IH]; intros w Hkey Huniq Hpres; cbn [serve].
  - auto.
  - destruct (step_keeps_invariants a w Hkey Huniq Hpres) as (H1 & H2 & H3).
    apply IH; assumption.
Qed.

Lemma serve_keeps_invariants_witness :
  unique_titles
    (collection
       (serve [mkArrival true Sample.env (PostMovies (title_body "Heat"));
               mkArrival true (mkEnv 40 164%N)
                 (PutMovie Sample.inception_id (title_body "Heat"))]
          (mkWorld ∅ true []))).
Proof.
  apply (serve_keeps_invariants
           [mkArrival true Sample.env (PostMovies (title_body "Heat"));
            mkArrival true (mkEnv 40 164%N)
              (PutMovie Sample.inception_id (title_body "Heat"))]
           (mkWorld ∅ true [])).
  - intros k m Hm. cbn in Hm. rewrite lookup_empty in Hm. discriminate.
  - intros k1 k2 m1 m2 Hm. cbn in Hm. rewrite lookup_empty in Hm. discriminate.
  - intros k m Hm. cbn in Hm. rewrite lookup_empty in Hm. discriminate.
Defined.

(** ** Updating a title *)

(** What the title update does with a non-empty text title. *)
Lemma put_movie_run env id t w :
  t <> "" ->
  Routes.put_movie env id (title_body t) w =
    let log := issued w ++ [CUpdateTitle id (VStr t)] in
    match castObjectId id with
    | None => (mkResponse 400 (JError CastError),
               mkWorld (collection w) (connected w) log)
    | Some k =>
        if connected w then
          match collection w !! k with
          | None => (movie_not_found, mkWorld (collection w) true log)
          | Some m =>
              if Model.title_taken t k (collection w)
              then (mkResponse 400 (JError DuplicateKey),
                    mkWorld (collection w) true log)
              else
                let m' := mkMovie (_id m) t (reviews m) (createdAt m) (now env) in
                (mkResponse 200 (JMovie m'),
                 mkWorld (<[k := m']> (collection w)) true log)
          end
        else (mkResponse 400 (JError ConnectionError),
              mkWorld (collection w) false log)
    end.
Proof.
  intros Ht. unfold Routes.put_movie, title_body; cbn [body_title].
  assert (Hn : Js.not (VStr t) = false).
  { unfold Js.not. cbn. rewrite negb_involutive. apply String.eqb_neq, Ht. }
  rewrite Hn. run_handler. cbn [castString validate_required_string].
  apply String.eqb_neq in Ht. rewrite Ht. cbn.
  destruct (castObjectId id) as [k|]; cbn; [|reflexivity].
  destruct (connected w); cbn; [|reflexivity].
  destruct (collection w !! k) as [m|]; cbn; [|reflexivity].
  destruct (Model.title_taken _ _ _); reflexivity.
Qed.

(** X7: on a server that answers, giving an existing movie a non-empty title
    that no other movie has, its own present title included, answers 200
    with the movie under the new title, its identifier, reviews and creation
    time as they were and [updatedAt] at the time of the request; that is
    the stored document, and no other document changes. *)
Theorem put_movie_renames env id k t m w :
  t <> "" ->
  connected w = true ->
  castObjectId id = Some k ->
  collection w !! k = Some m ->
  (forall k', k' <> k -> ~ titled (collection w) t k') ->
  (Routes.put_movie env id (title_body t) w).1
  = mkResponse 200
      (JMovie (mkMovie (_id m) t (reviews m) (createdAt m) (now env)))
  /\ collection (Routes.put_movie env id (title_body t) w).2
     = <[k := mkMovie (_id m) t (reviews m) (createdAt m) (now env)]>
         (collection w).
Proof.
  intros Ht Hc Hk Hm Hfree.
  rewrite (put_movie_run env id t w Ht), Hk, Hc, Hm. cbn zeta.
  assert (Htaken : Model.title_taken t k (collection w) = false).
  { apply not_true_iff_false. intros H. apply title_taken_spec in H.
    destruct H as (k' & Hne & H). exact (Hfree k' Hne H). }
  rewrite Htaken. split; reflexivity.
Qed.

Lemma put_movie_renames_witness :
  (Routes.put_movie Sample.env Sample.inception_id (title_body "Inception")
     Sample.world).1
  = mkResponse 200 (JMovie (mkMovie 161%N "Inception" [Sample.great] 10 30)).
Proof.
  destruct (put_movie_renames Sample.env Sample.inception_id 161%N "Inception"
              Sample.inception Sample.world) as [H _].
  - discriminate.
  - reflexivity.
  - reflexivity.
  - reflexivity.
  - intros k' Hk' (m & Hm & _). cbn in Hm.
    apply lookup_singleton_Some in Hm. destruct Hm as [Hm _]. congruence.
  - exact H.
Defined.

(** X8: the title update fails without writing: a missing or empty title gets
    400 before any call on the model; with a non-empty title, an identifier
    that is not well formed gets 400 with the cast error, a server that does
    not answer gets 400, a well-formed identifier that no document has gets
    404, and a title that another movie has gets 400 with the duplicate-key
    error; in each case the collection is as it was. *)
Theorem put_movie_failures env id w :
  (forall body,
      body_title body = VUndefined \/ body_title body = VStr "" ->
      Routes.put_movie env id body w
      = (mkResponse 400 (JMessage "NEW TITLE REQUIRED!"), w))
  /\ (forall t,
        t <> "" -> castObjectId id = None ->
        (Routes.put_movie env id (title_body t) w).1
        = mkResponse 400 (JError CastError)
        /\ collection (Routes.put_movie env id (title_body t) w).2 = collection w)
  /\ (forall t k,
        t <> "" -> castObjectId id = Some k -> connected w = false ->
        (Routes.put_movie env id (title_body t) w).1
        = mkResponse 400 (JError ConnectionError)
        /\ collection (Routes.put_movie env id (title_body t) w).2 = collection w)
  /\ (forall t k,
        t <> "" -> castObjectId id = Some k -> connected w = true ->
        collection w !! k = None ->
        (Routes.put_movie env id (title_body t) w).1 = movie_not_found
        /\ collection (Routes.put_movie env id (title_body t) w).2 = collection w)
  /\ (forall t k k' m,
        t <> "" -> castObjectId id = Some k -> connected w = true ->
        collection w !! k = Some m ->
        k' <> k -> titled (collection w) t k' ->
        (Routes.put_movie env id (title_body t) w).1
        = mkResponse 400 (JError DuplicateKey)
        /\ collection (Routes.put_movie env id (title_body t) w).2 = collection w).
Proof.
  split; [|split; [|split; [|split]]].
  - intros body H. unfold Routes.put_movie.
    destruct H as [-> | ->]; reflexivity.
  - intros t Ht Hk. rewrite (put_movie_run env id t w Ht), Hk.
    split; reflexivity.
  - intros t k Ht Hk Hc. rewrite (put_movie_run env id t w Ht), Hk, Hc.
    split; reflexivity.
  - intros t k Ht Hk Hc Hm. rewrite (put_movie_run env id t w Ht), Hk, Hc, Hm.
    split; reflexivity.
  - intros t k k' m Ht Hk Hc Hm Hne Htitled.
    rewrite (put_movie_run env id t w Ht), Hk, Hc, Hm. cbn zeta.
    assert (Htaken : Model.title_taken t k (collection w) = true)
      by (apply title_taken_spec; eauto).
    rewrite Htaken. split; reflexivity.
Qed.

Lemma put_movie_failures_witness :
  Routes.put_movie Sample.env Sample.inception_id (title_body "") Sample.world
  = (mkResponse 400 (JMessage "NEW TITLE REQUIRED!"), Sample.world)
  /\ (Routes.put_movie Sample.env "abc" (title_body "Heat") Sample.world).1
     = mkResponse 400 (JError CastError)
  /\ (Routes.put_movie Sample.env Sample.other_id (title_body "Heat")
        Sample.world).1 = movie_not_found.
Proof.
  destruct (put_movie_failures Sample.env Sample.inception_id Sample.world)
    as (Hguard & _).
  destruct (put_movie_failures Sample.env "abc" Sample.world)
    as (_ & Hcast & _).
  destruct (put_movie_failures Sample.env Sample.other_id Sample.world)
    as (_ & _ & _ & Habsent & _).
  split; [|split].
  - apply Hguard. right. reflexivity.
  - apply Hcast; [discriminate|reflexivity].
  - apply (Habsent "Heat" 163%N); [discriminate|reflexivity|reflexivity|reflexivity].
Defined.

(** ** Reading the reviews of a movie *)

(** X9: the handler answers, for a well-formed identifier of a stored movie on a
    server that answers, 200 with the identifier as the request spelled it
    and the title and reviews of the movie; it answers 404 exactly when the
    identifier is well formed, the server answers and no document has it,
    and 500 exactly when the identifier is not well formed or the server
    does not answer. *)
Theorem get_reviews_outcomes id w :
  (forall k m,
      castObjectId id = Some k -> connected w = true ->
      collection w !! k = Some m ->
      (Routes.get_reviews id w).1
      = mkResponse 200 (JReviews id (title m) (reviews m)))
  /\ (status (Routes.get_reviews id w).1 = 404 <->
        exists k, castObjectId id = Some k /\ connected w = true
                  /\ collection w !! k = None)
  /\ (status (Routes.get_reviews id w).1 = 500 <->
        castObjectId id = None \/ connected w = false).
Proof.
  split; [|split]; run_handler.
  - intros k m Hk Hc Hm. rewrite Hk. cbn. rewrite Hc. cbn. rewrite Hm.
    reflexivity.
  - destruct (castObjectId id) as [k|] eqn:Hk; cbn.
    + destruct (connected w) eqn:Hc; cbn.
      * destruct (collection w !! k) eqn:Hm; cbn; split.
        -- discriminate.
        -- intros (k' & Hk' & _ & Hn). congruence.
        -- intros _. eauto.
        -- reflexivity.
      * split; [discriminate|]. intros (k' & _ & ? & _). discriminate.
    + split; [discriminate|]. intros (k' & ? & _). discriminate.
  - destruct (castObjectId id) as [k|] eqn:Hk; cbn.
    + destruct (connected w) eqn:Hc; cbn.
      * destruct (collection w !! k) eqn:Hm; cbn; split;
          try discriminate; intros [?|?]; discriminate.
      * split; auto.
    + split; auto.
Qed.

Lemma get_reviews_outcomes_witness :
  (Routes.get_reviews "0000000000000000000000A1" Sample.world).1
  = mkResponse 200
      (JReviews "0000000000000000000000A1" "Inception" [Sample.great]).
Proof.
  destruct (get_reviews_outcomes "0000000000000000000000A1" Sample.world)
    as (H & _).
  apply (H 161%N Sample.inception); reflexivity.
Defined.

(** ** Creating, reading back and deleting *)

(** What a creation that answers 201 has done. *)
Lemma post_movies_created env body w :
  status (Routes.post_movies env body w).1 = 201 ->
  exists s,
    s <> "" /\ connected w = true /\ collection w !! fresh env = None
    /\ Routes.post_movies env body w
       = (mkResponse 201 (JMovie (mkMovie (fresh env) s [] (now env) (now env))),
          mkWorld (<[fresh env := mkMovie (fresh env) s [] (now env) (now env)]>
                     (collection w))
                  true (issued (Routes.post_movies env body w).2)).
Proof.
  intros Hst.
  destruct (Routes.post_movies env body w) as [r w'] eqn:Hrun.
  cbn [fst snd] in *.
  destruct (router_effect env (PostMovies body) w r w' Hrun) as (Hc & _ & Heff).
  destruct Heff as [[_ Hs]|[(id & k & m & [=] & _)
                   |[(b & s & _ & Hcw & _ & Hs & Hfree & _ & -> & Hcoll)
                   |(k & m & m' & _ & _ & -> & _)]]];
    [destruct Hs as [Hs|[Hs|[Hs|[Hs _]]]]; rewrite Hs in Hst; discriminate
    | |discriminate].
  exists s. split; [exact Hs|]. split; [exact Hcw|]. split; [exact Hfree|].
  f_equal. destruct w' as [c' b' l']. cbn in *. congruence.
Qed.

(** X10: a movie whose creation answered 201 can be read back under the generated
    identifier: the read answers 200 with the very document of the creation
    answer, which has no reviews and equal creation and update times, and
    the listing of its reviews answers 200 with the empty list. *)
Theorem created_movie_reads_back env body id w :
  status (Routes.post_movies env body w).1 = 201 ->
  castObjectId id = Some (fresh env) ->
  exists m,
    (Routes.post_movies env body w).1 = mkResponse 201 (JMovie m)
    /\ _id m = fresh env /\ reviews m = []
    /\ createdAt m = now env /\ updatedAt m = now env
    /\ (Routes.get_movie id (Routes.post_movies env body w).2).1
       = mkResponse 200 (JMovie m)
    /\ (Routes.get_reviews id (Routes.post_movies env body w).2).1
       = mkResponse 200 (JReviews id (title m) []).
Proof.
  intros Hst Hid.
  destruct (post_movies_created env body w Hst) as (s & _ & _ & _ & ->).
  eexists. cbn [fst snd]. repeat (split; [reflexivity|]).
  split; run_handler; rewrite Hid; cbn; rewrite lookup_insert_eq; reflexivity.
Qed.

Lemma created_movie_reads_back_witness :
  (Routes.get_reviews Sample.other_id
     (Routes.post_movies Sample.env (title_body "Heat") Sample.world).2).1
  = mkResponse 200 (JReviews Sample.other_id "Heat" []).
Proof.
  destruct (created_movie_reads_back Sample.env (title_body "Heat")
              Sample.other_id Sample.world) as (m & Hpost & _ & _ & _ & _ & _ & Hget).
  - reflexivity.
  - reflexivity.
  - rewrite Hget. vm_compute in Hpost. injection Hpost as <-. reflexivity.
Defined.

(** X11: deleting a movie right after its creation answered 201 answers 200 with
    the created document and leaves the collection exactly as it was before
    the creation. *)
Theorem create_then_delete_restores env body id w :
  status (Routes.post_movies env body w).1 = 201 ->
  castObjectId id = Some (fresh env) ->
  status (Routes.delete_movie id (Routes.post_movies env body w).2).1 = 200
  /\ json (Routes.delete_movie id (Routes.post_movies env body w).2).1
     = json (Routes.post_movies env body w).1
  /\ collection (Routes.delete_movie id (Routes.post_movies env body w).2).2
     = collection w.
Proof.
  intros Hst Hid.
  destruct (post_movies_created env body w Hst) as (s & _ & _ & Hfree & ->).
  cbn [fst snd]. run_handler. rewrite Hid. cbn. rewrite lookup_insert_eq. cbn.
  repeat split. apply delete_insert_id, Hfree.
Qed.

Lemma create_then_delete_restores_witness :
  collection (Routes.delete_movie Sample.other_id
                (Routes.post_movies Sample.env (title_body "Heat")
                   Sample.world).2).2
  = collection Sample.world.
Proof.
  apply (create_then_delete_restores Sample.env (title_body "Heat")
           Sample.other_id Sample.world); reflexivity.
Defined.

(** ** Deleting a movie: the other outcomes *)

(** X12: the deletion answers 404 exactly when the identifier is well formed, the
    server answers and no document has it, and 500 exactly when the
    identifier is not well formed or the server does not answer; a second
    deletion of a movie that the first one removed answers 404 and changes
    nothing. *)
Theorem delete_movie_outcomes id w :
  (status (Routes.delete_movie id w).1 = 404 <->
     exists k, castObjectId id = Some k /\ connected w = true
               /\ collection w !! k = None)
  /\ (status (Routes.delete_movie id w).1 = 500 <->
        castObjectId id = None \/ connected w = false)
  /\ (status (Routes.delete_movie id w).1 = 200 ->
      (Routes.delete_movie id (Routes.delete_movie id w).2).1 = movie_not_found
      /\ collection (Routes.delete_movie id (Routes.delete_movie id w).2).2
         = collection (Routes.delete_movie id w).2).
Proof.
  split; [|split]; run_handler.
  - destruct (castObjectId id) as [k|] eqn:Hk; cbn.
    + destruct (connected w) eqn:Hc; cbn.
      * destruct (collection w !! k) eqn:Hm; cbn; split.
        -- discriminate.
        -- intros (k' & Hk' & _ & Hn). congruence.
        -- intros _. eauto.
        -- reflexivity.
      * split; [discriminate|]. intros (k' & _ & ? & _). discriminate.
    + split; [discriminate|]. intros (k' & ? & _). discriminate.
  - destruct (castObjectId id) as [k|] eqn:Hk; cbn.
    + destruct (connected w) eqn:Hc; cbn.
      * destruct (collection w !! k) eqn:Hm; cbn; split;
          try discriminate; intros [?|?]; discriminate.
      * split; auto.
    + split; auto.
  - destruct (castObjectId id) as [k|] eqn:Hk; cbn; [|discriminate].
    destruct (connected w) eqn:Hc; cbn; [|discriminate].
    destruct (collection w !! k) eqn:Hm; cbn; [|discriminate].
    intros _. rewrite lookup_delete_eq. cbn. split; reflexivity.
Qed.

Lemma delete_movie_outcomes_witness :
  (Routes.delete_movie Sample.inception_id
     (Routes.delete_movie Sample.inception_id Sample.world).2).1
  = movie_not_found.
Proof.
  destruct (delete_movie_outcomes Sample.inception_id Sample.world)
    as (_ & _ & H).
  apply H. reflexivity.
Defined.

(** ** Adding a review: the other outcomes, and taking it back *)


(** What the add-review handler does with a body that passes its guard. *)
Lemma post_reviews_run env id body w :
  Routes.post_reviews_invalid body = false ->
  Routes.post_reviews env id body w =
    let log := issued w ++ [CPushReview id (body_rating body) (body_comment body)] in
    match castObjectId id with
    | None => (mkResponse 400 (JError CastError),
               mkWorld (collection w) (connected w) log)
    | Some k =>
        match castNumber (body_rating body) with
        | Throw e => (mkResponse 400 (JError e),
                      mkWorld (collection w) (connected w) log)
        | Ok r' =>
            match castString (body_comment body) with
            | Throw e => (mkResponse 400 (JError e),
                          mkWorld (collection w) (connected w) log)
            | Ok c' =>
                if connected w then
                  match collection w !! k with
                  | None => (movie_not_found, mkWorld (collection w) true log)
                  | Some m =>
                      let m' := mkMovie (_id m) (title m)
                                  (reviews m ++ [mkReview (fresh env) r' c'])
                                  (createdAt m) (now env) in
                      (mkResponse 200 (JMovie m'),
                       mkWorld (<[k := m']> (collection w)) true log)
                  end
                else (mkResponse 400 (JError ConnectionError),
                      mkWorld (collection w) false log)
            end
        end
    end.
Proof.
  intros Hg. unfold Routes.post_reviews. rewrite Hg. run_handler.
  destruct (castObjectId id) as [k|]; cbn; [|reflexivity].
  destruct (castNumber (body_rating body)); cbn; [|reflexivity].
  destruct (castString (body_comment body)); cbn; [|reflexivity].
  destruct (connected w); cbn; [|reflexivity].
  destruct (collection w !! k); reflexivity.
Qed.



Lemma filter_appended_review rid l r :
  no_review rid l -> r_id r = rid ->
  List.filter (fun x => negb (Model.matches rid x)) (l ++ [r]) = l.
Proof.
  intros Hno Hr. rewrite List.filter_app, (filter_no_review rid l Hno). cbn.
  unfold Model.matches. rewrite (proj2 (N.eqb_eq _ _) Hr). cbn.
  apply app_nil_r.
Qed.

(** X14: a review that has just been added can be taken back: when the movie had
    no review with the generated identifier, deleting the review under that
    identifier answers 200 with the movie's reviews exactly as they were
    before the addition, and its title unchanged. *)
Theorem add_then_delete_review env env' id rid k m body w :
  Routes.post_reviews_invalid body = false ->
  connected w = true ->
  castObjectId id = Some k ->
  collection w !! k = Some m ->
  no_review (fresh env) (reviews m) ->
  castObjectId rid = Some (fresh env) ->
  exists m',
    (Routes.delete_review env' id rid (Routes.post_reviews env id body w).2).1
    = mkResponse 200 (JMovie m')
    /\ reviews m' = reviews m /\ title m' = title m /\ _id m' = _id m
    /\ collection (Routes.delete_review env' id rid
                     (Routes.post_reviews env id body w).2).2 !! k = Some m'.
Proof.
  intros Hg Hc Hk Hm Hno Hrid.
  rewrite (post_reviews_run env id body w Hg), Hk. cbn zeta.
  destruct (castString_total (body_comment body)) as (c' & ->).
  destruct (castNumber (body_rating body)) as [r'|e].
  - rewrite Hc, Hm. cbn [fst snd]. rewrite delete_review_run, Hk, Hrid.
    cbn [connected collection issued]. cbn zeta. rewrite lookup_insert_eq.
    eexists. cbn [fst snd collection reviews title _id].
    split; [reflexivity|]. split; [apply filter_appended_review; auto|].
    split; [reflexivity|]. split; [reflexivity|]. apply lookup_insert_eq.
  - cbn [fst snd]. rewrite delete_review_run, Hk, Hrid.
    cbn [connected collection issued]. cbn zeta. rewrite Hc, Hm.
    eexists. cbn [fst snd collection reviews title _id].
    split; [reflexivity|]. split; [apply filter_no_review, Hno|].
    split; [reflexivity|]. split; [reflexivity|]. apply lookup_insert_eq.
Qed.

Lemma add_then_delete_review_witness :
  exists m',
    (Routes.delete_review Sample.env Sample.inception_id Sample.other_id
       (Routes.post_reviews Sample.env Sample.inception_id
          (review_body (Some (Finite 3)) (Some "ok")) Sample.world).2).1
    = mkResponse 200 (JMovie m')
    /\ reviews m' = [Sample.great].
Proof.
  destruct (add_then_delete_review Sample.env Sample.env Sample.inception_id
              Sample.other_id 161%N Sample.inception
              (review_body (Some (Finite 3)) (Some "ok")) Sample.world)
    as (m' & Hres & Hrev & _).
  - reflexivity.
  - reflexivity.
  - reflexivity.
  - reflexivity.
  - repeat constructor. cbn. discriminate.
  - reflexivity.
  - exists m'. split; [exact Hres|exact Hrev].
Defined.

(** X15: deleting a review a second time changes no review: on a server that
    answers, for an existing movie and a well-formed review identifier, the
    second deletion answers 200 with the same reviews as the first. *)
Theorem delete_review_twice env env' movieId reviewId k rid m w :
  connected w = true ->
  castObjectId movieId = Some k ->
  castObjectId reviewId = Some rid ->
  collection w !! k = Some m ->
  exists m1 m2,
    (Routes.delete_review env movieId reviewId w).1 = mkResponse 200 (JMovie m1)
    /\ (Routes.delete_review env' movieId reviewId
          (Routes.delete_review env movieId reviewId w).2).1
       = mkResponse 200 (JMovie m2)
    /\ reviews m2 = reviews m1
    /\ title m2 = title m1 /\ _id m2 = _id m1 /\ createdAt m2 = createdAt m1.
Proof.
  intros Hc Hk Hrid Hm.
  rewrite (delete_review_run env movieId reviewId w), Hk, Hrid, Hc, Hm.
  cbn zeta. cbn [fst snd].
  rewrite delete_review_run, Hk, Hrid. cbn [connected collection issued].
  cbn zeta. rewrite lookup_insert_eq.
  eexists _, _. cbn [fst snd reviews title _id createdAt].
  split; [reflexivity|]. split; [reflexivity|].
  split; [apply filter_no_review, filter_removes_review|].
  repeat split.
Qed.

Lemma delete_review_twice_witness :
  exists m1 m2,
    (Routes.delete_review Sample.env Sample.inception_id Sample.review_id
       Sample.world).1 = mkResponse 200 (JMovie m1)
    /\ (Routes.delete_review Sample.env Sample.inception_id Sample.review_id
          (Routes.delete_review Sample.env Sample.inception_id Sample.review_id
             Sample.world).2).1 = mkResponse 200 (JMovie m2)
    /\ reviews m2 = reviews m1.
Proof.
  destruct (delete_review_twice Sample.env Sample.env Sample.inception_id
              Sample.review_id 161%N 162%N Sample.inception Sample.world)
    as (m1 & m2 & H1 & H2 & Hrev & _); [reflexivity..|].
  exists m1, m2. auto.
Defined.

(** ** The two servers side by side *)

Lemma patch_guards_agree body :
  is_undefined (body_rating body) = false
  \/ is_undefined (body_comment body) = true
  \/ Js.not (body_comment body) = false ->
  Server.patch_review_invalid body = Routes.patch_review_invalid body.
Proof.
  unfold Server.patch_review_invalid, Routes.patch_review_invalid.
  destruct body as [t r c]; cbn [body_rating body_comment]. intros H.
  destruct (is_undefined r) eqn:Hr.
  - destruct r; try discriminate. cbn.
    destruct H as [H|[H|H]]; [discriminate| |].
    + destruct c; try discriminate. reflexivity.
    + rewrite H. destruct c; try reflexivity. discriminate.
  - cbn [negb andb orb]. destruct (Js.not r) eqn:Hn.
    + rewrite (falsy_lt_1 r Hr Hn). reflexivity.
    + cbn. rewrite !orb_false_r. reflexivity.
Qed.

(** X16: the single-file server answers every request exactly as the routes of
    [routes/movieRoutes.js] do, and leaves the same world, except possibly a
    PATCH whose body has no rating and a comment that is present but falsy. *)
Theorem servers_agree env req w :
  (forall movieId reviewId body,
      req = PatchReview movieId reviewId body ->
      is_undefined (body_rating body) = false
      \/ is_undefined (body_comment body) = true
      \/ Js.not (body_comment body) = false) ->
  ServerMovies.router env req w = router env req w.
Proof.
  intros H.
  destruct req as [|id|body|id body|id|id|id body|mid rid body|mid rid];
    try reflexivity.
  cbn [ServerMovies.router router].
  unfold Server.patch_review, Routes.patch_review.
  rewrite (patch_guards_agree body (H mid rid body eq_refl)). reflexivity.
Qed.

Lemma servers_agree_witness :
  ServerMovies.router Sample.env
    (PatchReview Sample.inception_id Sample.review_id Sample.comment_x)
    Sample.world
  = router Sample.env
      (PatchReview Sample.inception_id Sample.review_id Sample.comment_x)
      Sample.world.
Proof.
  apply (servers_agree Sample.env
           (PatchReview Sample.inception_id Sample.review_id Sample.comment_x)
           Sample.world).
  intros movieId reviewId body [= _ _ <-]. right; right. reflexivity.
Defined.

(** ** The serverless entry point *)

Import Serverless.

(** Once connected, the process never calls [mongoose.connect] again and logs
    nothing more: whatever the later invocations, its state stays as it is
    and every request is answered as the application answers it. *)
Lemma invoke_connected l : forall p w,
  isConnected p = true ->
  invoke l p w = ((answers l w).1, p, (answers l w).2).
Proof.
  induction l as [|i l IH]; intros p w Hp; cbn [invoke answers]; [reflexivity|].
  unfold handler, connectDB. rewrite Hp.
  rewrite (IH p _ Hp).
  destruct (answers l _) as [rs w']. reflexivity.
Qed.

(** While every connection attempt fails, no request reaches the
    application: nothing is answered, the world is untouched, the flag stays
    off, and each invocation has called [mongoose.connect] once and logged
    its error. *)
Lemma invoke_failing l : forall p w,
  isConnected p = false ->
  Forall failing l ->
  invoke l p w
  = (List.map (fun _ => None) l,
     mkProcess false (connectCalls p + length l)
       (console p ++ List.map connection_log l),
     w).
Proof.
  induction l as [|i l IH]; intros p w Hp Hl; cbn [invoke List.map length].
  - destruct p as [b n c]. cbn in *. subst b.
    rewrite Nat.add_0_r, app_nil_r. reflexivity.
  - inversion Hl as [|? ? (e & He) Hl']; subst.
    unfold handler, connectDB. rewrite Hp, He.
    rewrite (IH (mkProcess false (S (connectCalls p))
                   (console p ++ [LogConnectionError e])) w eq_refl Hl').
    cbn [connectCalls console].
    unfold connection_log at 2. rewrite He.
    rewrite <- app_assoc. cbn [app].
    replace (S (connectCalls p) + length l)%nat
      with (connectCalls p + S (length l))%nat by lia.
    reflexivity.
Qed.

Lemma invoke_app l1 : forall l2 p w,
  invoke (l1 ++ l2) p w
  = (let '(rs1, p1, w1) := invoke l1 p w in
     let '(rs2, p2, w2) := invoke l2 p1 w1 in
     (rs1 ++ rs2, p2, w2)).
Proof.
  induction l1 as [|i l1 IH]; intros l2 p w; cbn [invoke app].
  - destruct (invoke l2 p w) as [[rs2 p2] w2]. reflexivity.
  - destruct (handler i p w) as [[r p'] w'].
    rewrite IH.
    destruct (invoke l1 p' w') as [[rs1 p1] w1].
    destruct (invoke l2 p1 w1) as [[rs2 p2] w2]. reflexivity.
Qed.

(** X17: the entry point connects once: a process that is not connected calls
    [mongoose.connect] at each invocation until the first call that
    succeeds and never afterwards; the invocations before that one get no
    answer and leave the world untouched, that one and all later ones are
    answered as the application answers them. *)
Theorem connects_until_first_success l1 i l2 p w :
  isConnected p = false ->
  Forall failing l1 ->
  connect_outcome i = Ok tt ->
  invoke (l1 ++ i :: l2) p w
  = (List.map (fun _ => None) l1 ++ (answers (i :: l2) w).1,
     mkProcess true (connectCalls p + length l1 + 1)
       (console p ++ List.map connection_log l1 ++ [LogConnected]),
     (answers (i :: l2) w).2).
Proof.
  intros Hp Hl1 Hi.
  rewrite invoke_app, (invoke_failing l1 p w Hp Hl1).
  cbn [invoke answers]. unfold handler, connectDB.
  cbn [isConnected connectCalls console]. rewrite Hi.
  rewrite (invoke_connected l2
             (mkProcess true (S (connectCalls p + length l1))
                ((console p ++ List.map connection_log l1) ++ [LogConnected]))).
  2: reflexivity.
  destruct (answers l2 _) as [rs w']. cbn [fst snd].
  rewrite <- app_assoc.
  replace (S (connectCalls p + length l1)) with (connectCalls p + length l1 + 1)%nat
    by lia.
  reflexivity.
Qed.

Lemma connects_until_first_success_witness :
  connectCalls
    (invoke
       ([mkInvocation (Throw ConnectionError) Sample.env GetMovies]
        ++ mkInvocation (Ok tt) Sample.env GetMovies
           :: [mkInvocation (Throw ConnectionError) Sample.env GetMovies])
       (mkProcess false 0 []) Sample.world).1.2
  = 2%nat.
Proof.
  rewrite (connects_until_first_success
             [mkInvocation (Throw ConnectionError) Sample.env GetMovies]
             (mkInvocation (Ok tt) Sample.env GetMovies)
             [mkInvocation (Throw ConnectionError) Sample.env GetMovies]
             (mkProcess false 0 []) Sample.world).
  - reflexivity.
  - reflexivity.
  - repeat constructor. exists ConnectionError. reflexivity.
  - reflexivity.
Defined.

(** X18: a process that is connected stays connected and makes no further call of
    [mongoose.connect], whatever that call would answer: the entry point
    then adds nothing to the application. *)
Theorem connected_process_is_transparent l p w :
  isConnected p = true ->
  invoke l p w = ((answers l w).1, p, (answers l w).2).
Proof. apply invoke_connected. Qed.

Lemma connected_process_is_transparent_witness :
  (invoke [mkInvocation (Throw ConnectionError) Sample.env GetMovies]
     (mkProcess true 1 [LogConnected]) Sample.world).1.2
  = mkProcess true 1 [LogConnected].
Proof.
  rewrite (connected_process_is_transparent
             [mkInvocation (Throw ConnectionError) Sample.env GetMovies]
             (mkProcess true 1 [LogConnected]) Sample.world eq_refl).
  reflexivity.
Defined.

(** ** The listing after a creation and after a deletion *)

(** On a server that answers, the listing holds exactly the stored
    documents. *)
Lemma listing_members w :
  connected w = true ->
  exists l,
    (Routes.get_movies w).1 = mkResponse 200 (JMovies l)
    /\ forall m, m ∈ l <-> exists k, collection w !! k = Some m.
Proof.
  intros Hc. exists (merge_sort Model.title_le (Model.documents (collection w))).
  split; [run_handler; rewrite Hc; reflexivity|].
  intros m. rewrite merge_sort_Permutation. unfold Model.documents.
  rewrite list_elem_of_fmap. split.
  - intros ([k m'] & -> & Hin). exists k. apply elem_of_map_to_list, Hin.
  - intros (k & Hk). exists (k, m). split; [reflexivity|].
    apply elem_of_map_to_list, Hk.
Qed.

(** X19: after a creation that answered 201 the listing holds the created movie
    and every movie that was stored before; after a deletion that answered
    200 the listing no longer holds a document with the deleted identifier,
    provided documents are stored under their own identifier, and holds no
    document that was not stored before. *)
Theorem listing_follows_writes w :
  (forall env body m,
      (Routes.post_movies env body w).1 = mkResponse 201 (JMovie m) ->
      exists l,
        (Routes.get_movies (Routes.post_movies env body w).2).1
        = mkResponse 200 (JMovies l)
        /\ m ∈ l
        /\ forall k m0, collection w !! k = Some m0 -> m0 ∈ l)
  /\ (forall id k,
        status (Routes.delete_movie id w).1 = 200 ->
        castObjectId id = Some k ->
        keyed_by_id (collection w) ->
        exists l,
          (Routes.get_movies (Routes.delete_movie id w).2).1
          = mkResponse 200 (JMovies l)
          /\ (forall m, m ∈ l -> _id m <> k)
          /\ (forall m, m ∈ l -> exists k', collection w !! k' = Some m)).
Proof.
  split.
  - intros env body m Hres.
    assert (Hst : status (Routes.post_movies env body w).1 = 201)
      by (rewrite Hres; reflexivity).
    destruct (post_movies_created env body w Hst) as (s & _ & _ & Hfree & Hrun).
    rewrite Hrun in Hres |- *. cbn [fst snd] in *. injection Hres as <-.
    destruct (listing_members
                (mkWorld (<[fresh env := mkMovie (fresh env) s [] (now env) (now env)]>
                            (collection w)) true
                   (issued (Routes.post_movies env body w).2)) eq_refl)
      as (l & Hl & Hmem).
    exists l. split; [exact Hl|]. cbn [collection] in Hmem. split.
    + apply Hmem. exists (fresh env). apply lookup_insert_eq.
    + intros k m0 Hm0. apply Hmem. exists k.
      rewrite lookup_insert_ne; [exact Hm0|]. congruence.
  - intros id k Hst Hk Hkey.
    destruct (Routes.delete_movie id w) as [r w'] eqn:Hrun. cbn [fst snd] in *.
    destruct (router_effect (mkEnv 0 0%N) (DeleteMovie id) w r w' Hrun)
      as (Hc & _ & Heff).
    destruct Heff as [[_ Hs]|[(id' & k' & m & [= <-] & Hk' & Hcw & Hm & _ & Hcoll)
                     |[(b & s & [=] & _)
                     |(k' & m & m' & _ & _ & _ & _ & _ & _ & _ & Hreq)]]].
    + destruct Hs as [Hs|[Hs|[Hs|[_ []]]]]; rewrite Hs in Hst; discriminate.
    + assert (k' = k) by congruence. subst k'.
      destruct (listing_members w') as (l & Hl & Hmem); [congruence|].
      exists l. split; [exact Hl|]. rewrite Hcoll in Hmem. split.
      * intros m0 Hin Hid. apply Hmem in Hin. destruct Hin as (k0 & Hk0).
        apply lookup_delete_Some in Hk0. destruct Hk0 as [Hne Hk0].
        apply Hne. rewrite <- Hid. apply (Hkey k0 m0 Hk0).
      * intros m0 Hin. apply Hmem in Hin. destruct Hin as (k0 & Hk0).
        apply lookup_delete_Some in Hk0. exists k0. tauto.
    + destruct Hreq as [(? & ? & [=] & _)|[[] _]].
Qed.

Lemma listing_follows_writes_witness :
  exists l,
    (Routes.get_movies
       (Routes.post_movies Sample.env (title_body "Heat") Sample.world).2).1
    = mkResponse 200 (JMovies l)
    /\ mkMovie 163%N "Heat" [] 30 30 ∈ l
    /\ Sample.inception ∈ l.
Proof.
  destruct (listing_follows_writes Sample.world) as (H & _).
  destruct (H Sample.env (title_body "Heat") (mkMovie 163%N "Heat" [] 30 30))
    as (l & Hl & Hnew & Hold); [reflexivity|].
  exists l. split; [exact Hl|]. split; [exact Hnew|].
  apply (Hold 161%N). reflexivity.
Defined.

Lemma one_document_per_request_witness :
  exists k0, forall k,
    k <> k0 ->
    collection (router Sample.env (DeleteMovie Sample.inception_id)
                  Sample.world).2 !! k
    = collection Sample.world !! k.
Proof.
  exact (one_document_per_request Sample.env (DeleteMovie Sample.inception_id)
           Sample.world).
Defined.

